(** * MahiroAdapter: the profile cache, the fetch client, the message-time
      collector and the prompt interceptor of [plugin.py]

    The development is a shallow embedding of [src/MahiroAdapter/plugin.py].

    - Python values that flow through the plugin untyped (configuration values,
      JSON payloads, message fields) are values of [Py.value].
    - A Python [str] is represented by its UTF-8 encoding as a Rocq [string];
      [==], [in], [split] on an ASCII separator and concatenation agree with
      Python's on that representation.
    - A [dict] is an association list in insertion order ([Py.dict]); Python
      keeps keys unique, which is the predicate [Py.dict_wf].
    - A Python [float] (wall-clock seconds of [time.time()]) is a rational.
    - Module globals, the class attributes the plugin overwrites and the fields
      of the handler object form the record [World]; the code is written in a
      state-and-exception monad [M] over it.
    - What the plugin consumes from outside (the wall clock, the host's two
      prompt builders, the HTTP endpoint, the host's configuration lookup) is
      the record [Env].
    - An exception is an instance of a class that derives from [Exception],
      which is what every [except Exception] of the plugin catches.
    - Calls to the logger have no effect on any value and are left out, and
      so are the keep-alive loop, the thread of [delayed_patch] and
      [_test_patch], which only log. *)

From Stdlib Require Import String Ascii List ZArith QArith Bool Lia Lqa DecimalString.
Import ListNotations.

Local Close Scope Q_scope.
Local Open Scope string_scope.

(* ================================================================== *)
(** ** The Python runtime the plugin relies on *)
(* ================================================================== *)

Module Py.

(** *** Strings *)

Definition bytes (l : list nat) : string :=
  string_of_list_ascii (map ascii_of_nat l).

Fixpoint string_rev (s : string) : string :=
  match s with
  | EmptyString => EmptyString
  | String a s' => string_rev s' ++ String a EmptyString
  end.

(** [c in s] for a one-character [c]. *)
Fixpoint contains (c : ascii) (s : string) : bool :=
  match s with
  | EmptyString => false
  | String a s' => if Ascii.eqb a c then true else contains c s'
  end.

(** [s.split(c)] for a one-character separator [c]: never empty. *)
Fixpoint split (c : ascii) (s : string) : list string :=
  match s with
  | EmptyString => [EmptyString]
  | String a s' =>
      if Ascii.eqb a c then EmptyString :: split c s'
      else match split c s' with
           | h :: t => String a h :: t
           | [] => [String a EmptyString]
           end
  end.

Fixpoint drop_prefix (p s : string) : option string :=
  match p, s with
  | EmptyString, _ => Some s
  | String a p', String b s' => if Ascii.eqb a b then drop_prefix p' s' else None
  | String _ _, EmptyString => None
  end.

Fixpoint drop_any (ps : list string) (s : string) : option string :=
  match ps with
  | [] => None
  | p :: ps' => match drop_prefix p s with
                | Some s' => Some s'
                | None => drop_any ps' s
                end
  end.

Fixpoint lstrip_from (fuel : nat) (ps : list string) (s : string) : string :=
  match fuel with
  | O => s
  | S fuel' => match drop_any ps s with
               | Some s' => lstrip_from fuel' ps s'
               | None => s
               end
  end.

(** The code points [str.strip()] removes, in UTF-8: the ASCII white space
    U+0009..U+000D, U+001C..U+0020, then U+0085, U+00A0, U+1680,
    U+2000..U+200A, U+2028, U+2029, U+202F, U+205F and U+3000. *)
Definition whitespace : list string :=
  map bytes
    [ [9]; [10]; [11]; [12]; [13]; [28]; [29]; [30]; [31]; [32];
      [194; 133]; [194; 160]; [225; 154; 128];
      [226; 128; 128]; [226; 128; 129]; [226; 128; 130]; [226; 128; 131];
      [226; 128; 132]; [226; 128; 133]; [226; 128; 134]; [226; 128; 135];
      [226; 128; 136]; [226; 128; 137]; [226; 128; 138];
      [226; 128; 168]; [226; 128; 169]; [226; 128; 175]; [226; 129; 159];
      [227; 128; 128] ]%nat.

Definition lstrip_set (ps : list string) (s : string) : string :=
  lstrip_from (String.length s) ps s.

Definition rstrip_set (ps : list string) (s : string) : string :=
  string_rev (lstrip_set (map string_rev ps) (string_rev s)).

(** [s.strip()] *)
Definition strip (s : string) : string :=
  rstrip_set whitespace (lstrip_set whitespace s).

(** [s.rstrip(c)] for a one-character [c]. *)
Definition rstrip_char (c : ascii) (s : string) : string :=
  rstrip_set [String c EmptyString] s.

Definition nonempty (s : string) : bool :=
  match s with EmptyString => false | String _ _ => true end.

(** *** Dictionaries: association lists in insertion order *)

Definition dict (V : Type) : Type := list (string * V).

Fixpoint dict_get {V} (k : string) (d : dict V) : option V :=
  match d with
  | [] => None
  | (k', v) :: d' => if String.eqb k' k then Some v else dict_get k d'
  end.

(** [d[k] = v]: an existing key keeps its place, a new key goes last. *)
Fixpoint dict_set {V} (k : string) (v : V) (d : dict V) : dict V :=
  match d with
  | [] => [(k, v)]
  | (k', v') :: d' =>
      if String.eqb k' k then (k', v) :: d' else (k', v') :: dict_set k v d'
  end.

(** [del d[k]].  At every call site of the plugin the key is present. *)
Definition dict_del {V} (k : string) (d : dict V) : dict V :=
  filter (fun kv => negb (String.eqb (fst kv) k)) d.

(** [k in d] *)
Definition dict_mem {V} (k : string) (d : dict V) : bool :=
  match dict_get k d with Some _ => true | None => false end.

(** [d.get(k, default)] *)
Definition dict_get_default {V} (k : string) (default : V) (d : dict V) : V :=
  match dict_get k d with Some v => v | None => default end.

(** Python keeps the keys of a dictionary pairwise distinct. *)
Definition dict_wf {V} (d : dict V) : Prop := NoDup (map fst d).

(** *** Dynamically typed values *)

Set Warnings "-register-all".

Inductive value : Type :=
| VNone
| VBool (b : bool)
| VInt (z : Z)
| VFloat (q : Q)
| VStr (s : string)
| VList (l : list value)
| VDict (d : list (string * value)).

(** Truth value of an object, as [if x:] and [not x] test it. *)
Definition truthy (v : value) : bool :=
  match v with
  | VNone => false
  | VBool b => b
  | VInt z => negb (Z.eqb z 0)
  | VFloat q => negb (Qeq_bool q 0)
  | VStr s => nonempty s
  | VList l => match l with [] => false | _ :: _ => true end
  | VDict d => match d with [] => false | _ :: _ => true end
  end.

Definition is_none (v : value) : bool :=
  match v with VNone => true | _ => false end.

Definition str_of_int (z : Z) : string := NilZero.string_of_int (Z.to_int z).

(** [str(v)], which is also what an f-string field [{v}] inserts.  The text of
    floats and of containers is the interpreter's [repr], supplied by
    [repr_other]. *)
Definition str (repr_other : value -> string) (v : value) : string :=
  match v with
  | VNone => "None"
  | VBool true => "True"
  | VBool false => "False"
  | VInt z => str_of_int z
  | VStr s => s
  | VFloat _ | VList _ | VDict _ => repr_other v
  end.

(** *** Exceptions: every class below derives from [Exception] *)

Inductive exn_class : Type :=
| TimeoutError | IndexError | KeyError | AttributeError | TypeError
| ImportError | RecursionError | OtherException (name : string).

Record exn : Type := Exn { exn_cls : exn_class; exn_msg : string }.

Definition is_timeout (e : exn) : bool :=
  match exn_cls e with TimeoutError => true | _ => false end.

Inductive outcome (A : Type) : Type :=
| Return (a : A)
| Raise (e : exn).
Arguments Return {A} a.
Arguments Raise {A} e.

End Py.
Import Py.

(* ================================================================== *)
(** ** Data model *)
(* ================================================================== *)

(** [UserInfoData] (dataclass). *)
Record UserInfoData : Type := mkUserInfoData {
  user_id : string;
  display_name : string;
  api_data : dict value;
  timestamp : Q;
  success : bool
}.

(** [UserInfoCache] (TypedDict): one entry of the global cache. *)
Record UserInfoCache : Type := mkUserInfoCache {
  user_data : UserInfoData;
  entry_timestamp : Q          (* the key ["timestamp"] *)
}.

(** An [aiohttp.ClientSession]. *)
Inductive ClientSession : Type := mkClientSession.

(** [ApiService]: the fields [__init__] sets, with whatever values the
    configuration supplied. *)
Record ApiService : Type := mkApiService {
  base_url : value;
  keep_alive_url : value;
  timeout : value;
  enabled_keep_alive : value;
  enable_api : value;
  _session : option ClientSession
}.

(** What a class attribute [build_prompt_reply_context] can hold: a method of
    the host, or one of the two closures [patch_build_prompt_reply_context]
    installs. *)
Inductive Method : Type :=
| HostMethod (id : nat)
| PatchedMethod
| PatchedMethodPri.

(** Side effects on the outside: network activity and task creation. *)
Inductive Event : Type :=
| EvSessionCreated
| EvPost (url : string)
| EvCreateTask.

(** The keyword arguments of [build_prompt_reply_context]. *)
Record BuildArgs : Type := mkBuildArgs {
  self_ : value;
  reply_message : value;
  extra_info : value;
  reply_reason : string;
  available_actions : value;
  chosen_actions : value;
  enable_tool : value;
  reply_time_point : option Q
}.

Definition with_time_point (t : option Q) (a : BuildArgs) : BuildArgs :=
  mkBuildArgs (self_ a) (reply_message a) (extra_info a) (reply_reason a)
    (available_actions a) (chosen_actions a) (enable_tool a) t.

(** [MaiMessages], as far as [execute] reads it.  The attribute
    [additional_data], which [execute] writes, is part of [World]. *)
Record MaiMessages : Type := mkMaiMessages {
  message_base_info : value;
  plain_text : value
}.

(** The mutable state of the process that the plugin reads and writes. *)
Record World : Type := mkWorld {
  clock_reads : nat;                      (* calls of [time.time()] so far *)
  _global_user_cache : dict UserInfoCache;
  _original_build_prompt_reply_context_group : option Method;
  _original_build_prompt_reply_context_pri : option Method;
  _patch_applied : bool;
  DefaultReplyer_build_prompt_reply_context : option Method;
  PrivateReplyer_build_prompt_reply_context : option Method;
  replyers_importable : bool;             (* do the host modules import? *)
  api_service : option ApiService;        (* [self.api_service] of the handler *)
  _initialized : bool;                    (* [self._initialized] of the handler *)
  additional_data : option value;         (* [message.additional_data], if set *)
  events : list Event
}.

Definition set_clock_reads (n : nat) (w : World) : World :=
  mkWorld n (_global_user_cache w) (_original_build_prompt_reply_context_group w)
    (_original_build_prompt_reply_context_pri w) (_patch_applied w)
    (DefaultReplyer_build_prompt_reply_context w)
    (PrivateReplyer_build_prompt_reply_context w) (replyers_importable w)
    (api_service w) (_initialized w) (additional_data w) (events w).

Definition set_cache (c : dict UserInfoCache) (w : World) : World :=
  mkWorld (clock_reads w) c (_original_build_prompt_reply_context_group w)
    (_original_build_prompt_reply_context_pri w) (_patch_applied w)
    (DefaultReplyer_build_prompt_reply_context w)
    (PrivateReplyer_build_prompt_reply_context w) (replyers_importable w)
    (api_service w) (_initialized w) (additional_data w) (events w).

Definition set_original_group (m : option Method) (w : World) : World :=
  mkWorld (clock_reads w) (_global_user_cache w) m
    (_original_build_prompt_reply_context_pri w) (_patch_applied w)
    (DefaultReplyer_build_prompt_reply_context w)
    (PrivateReplyer_build_prompt_reply_context w) (replyers_importable w)
    (api_service w) (_initialized w) (additional_data w) (events w).

Definition set_original_pri (m : option Method) (w : World) : World :=
  mkWorld (clock_reads w) (_global_user_cache w)
    (_original_build_prompt_reply_context_group w) m (_patch_applied w)
    (DefaultReplyer_build_prompt_reply_context w)
    (PrivateReplyer_build_prompt_reply_context w) (replyers_importable w)
    (api_service w) (_initialized w) (additional_data w) (events w).

Definition set_patch_applied (b : bool) (w : World) : World :=
  mkWorld (clock_reads w) (_global_user_cache w)
    (_original_build_prompt_reply_context_group w)
    (_original_build_prompt_reply_context_pri w) b
    (DefaultReplyer_build_prompt_reply_context w)
    (PrivateReplyer_build_prompt_reply_context w) (replyers_importable w)
    (api_service w) (_initialized w) (additional_data w) (events w).

Definition set_DefaultReplyer (m : option Method) (w : World) : World :=
  mkWorld (clock_reads w) (_global_user_cache w)
    (_original_build_prompt_reply_context_group w)
    (_original_build_prompt_reply_context_pri w) (_patch_applied w) m
    (PrivateReplyer_build_prompt_reply_context w) (replyers_importable w)
    (api_service w) (_initialized w) (additional_data w) (events w).

Definition set_PrivateReplyer (m : option Method) (w : World) : World :=
  mkWorld (clock_reads w) (_global_user_cache w)
    (_original_build_prompt_reply_context_group w)
    (_original_build_prompt_reply_context_pri w) (_patch_applied w)
    (DefaultReplyer_build_prompt_reply_context w) m (replyers_importable w)
    (api_service w) (_initialized w) (additional_data w) (events w).

Definition set_api_service (s : option ApiService) (w : World) : World :=
  mkWorld (clock_reads w) (_global_user_cache w)
    (_original_build_prompt_reply_context_group w)
    (_original_build_prompt_reply_context_pri w) (_patch_applied w)
    (DefaultReplyer_build_prompt_reply_context w)
    (PrivateReplyer_build_prompt_reply_context w) (replyers_importable w)
    s (_initialized w) (additional_data w) (events w).

Definition set_initialized (b : bool) (w : World) : World :=
  mkWorld (clock_reads w) (_global_user_cache w)
    (_original_build_prompt_reply_context_group w)
    (_original_build_prompt_reply_context_pri w) (_patch_applied w)
    (DefaultReplyer_build_prompt_reply_context w)
    (PrivateReplyer_build_prompt_reply_context w) (replyers_importable w)
    (api_service w) b (additional_data w) (events w).

Definition set_additional_data (d : option value) (w : World) : World :=
  mkWorld (clock_reads w) (_global_user_cache w)
    (_original_build_prompt_reply_context_group w)
    (_original_build_prompt_reply_context_pri w) (_patch_applied w)
    (DefaultReplyer_build_prompt_reply_context w)
    (PrivateReplyer_build_prompt_reply_context w) (replyers_importable w)
    (api_service w) (_initialized w) d (events w).

Definition add_event (e : Event) (w : World) : World :=
  mkWorld (clock_reads w) (_global_user_cache w)
    (_original_build_prompt_reply_context_group w)
    (_original_build_prompt_reply_context_pri w) (_patch_applied w)
    (DefaultReplyer_build_prompt_reply_context w)
    (PrivateReplyer_build_prompt_reply_context w) (replyers_importable w)
    (api_service w) (_initialized w) (additional_data w) (events w ++ [e])%list.

(* ================================================================== *)
(** ** The state-and-exception monad *)
(* ================================================================== *)

Definition M (A : Type) : Type := World -> outcome A * World.

Definition ret {A} (a : A) : M A := fun w => (Return a, w).

Definition raise {A} (e : exn) : M A := fun w => (Raise e, w).

Definition bind {A B} (m : M A) (k : A -> M B) : M B :=
  fun w => match m w with
           | (Return a, w') => k a w'
           | (Raise e, w') => (Raise e, w')
           end.

(** [try: m  except Exception as e: h e] *)
Definition try_except {A} (m : M A) (h : exn -> M A) : M A :=
  fun w => match m w with
           | (Return a, w') => (Return a, w')
           | (Raise e, w') => h e w'
           end.

Definition gets {A} (f : World -> A) : M A := fun w => (Return (f w), w).

Definition modify (f : World -> World) : M unit := fun w => (Return tt, f w).

Definition lift {A} (o : outcome A) : M A := fun w => (o, w).

Declare Scope py_scope.
Delimit Scope py_scope with py.
Notation "x <- m ;; k" := (bind m (fun x => k))
  (at level 61, m at next level, right associativity) : py_scope.
Notation "m ;; k" := (bind m (fun _ => k))
  (at level 61, right associativity) : py_scope.
Local Open Scope py_scope.

(** What the plugin consumes from its surroundings. *)
Record Env : Type := mkEnv {
  (** the value returned by the [n]-th call of [time.time()] *)
  clock : nat -> Q;
  (** the host's prompt builders, by identity *)
  host_build : nat -> BuildArgs -> M (string * list Z);
  (** [session.post(url, timeout=...)] up to the end of the [async with] *)
  http_post : string -> value -> outcome (Z * outcome value);
  (** [self.get_config(key, default)] of the host's handler base class *)
  get_config : string -> value -> outcome value;
  (** [repr] of floats and containers *)
  repr_other : value -> string
}.

(* ================================================================== *)
(** ** Prompt templates *)
(* ================================================================== *)

(** The tier description block, the same literal in both wrappers
    (lines 317-327 and 438-448). *)
Definition impression_prompt : string :=
  "
好感度等级描述:
好感度[0-10]：路人 (态度：普通) 你与用户关系是路人，对用户态度普通。不会主动接近用户，但也不会排斥用户，保持基本礼貌和活泼。
好感度[10-25]：陌生 (态度：普通，警惕) 你与用户关系是陌生，对用户态度普通。对用户保持基本礼貌和活泼，不会对用户说关于你隐私的事情。可接受一点点肢体接触 (比如：摸摸头，摸摸脸)，亲密接触除外。
好感度[25-50]：朋友 (态度：友好) 你与用户关系是朋友，对用户态度友好。可接受一些肢体接触 (比如：牵手)，亲密接触除外。
好感度[50-90]：熟悉 (态度：朋友，亲近) 你与用户态度是熟悉，对用户态度是朋友。可接受更多肢体接触 (比如：拥抱)，亲密接触除外。
好感度[90-140]：更加熟悉 (态度：非常要好的朋友，依赖) 你与用户态度是更加熟悉，对用户态度是非常要好的朋友，开始依赖对方。可接受更多肢体接触，可接受一点点亲密接触。
好感度[140-200]：信赖 (态度：依赖，信任) 你与用户态度是信赖，对用户态度是比较依赖对方，非常信任。可接受更多肢体接触，可接受更多亲密接触。
好感度[200-270]：相知 (态度：可以分享秘密的朋友) 你与用户态度是相知，对用户态度已达到可分享小秘密的地步。可接受更多肢体接触，可接受大部分亲密接触。
好感度[270-400]：厚谊 (态度：深厚友谊，重要的人) 你与用户态度是厚谊，对用户态度是建立了深厚友谊，用户是非常重要的人。可接受大部分亲密接触，会接受用户部分要求。 
好感度[>400]：恋人 (态度：亲密，爱恋) 你与用户态度是恋人，对用户态度是亲密爱恋。可接受恋人间的亲密接触，尽可能地接受用户任何要求。".

(** The header of the group wrapper for a successful fetch (lines 328-334). *)
Definition user_prompt_group (name uid impression attitude : string) : string :=
  "

        【用户背景信息】：当前用户 "
  ++ name
  ++ "(QQ:"
  ++ uid
  ++ ") 的好感度为："
  ++ impression
  ++ "
        你对用户的态度是："
  ++ attitude
  ++ "
        请参考以上用户信息来更好地理解和回应用户的需求。

        ".

(** The header of the group wrapper for a failed fetch (lines 341-344). *)
Definition user_prompt_group_failed (name uid : string) : string :=
  "
【用户信息提示】：当前用户 "
  ++ name
  ++ "(QQ:"
  ++ uid
  ++ ") 的好感度为：10
你对用户的态度是：一般
".

(** The header of the private wrapper for a successful fetch (lines 449-454). *)
Definition user_prompt_pri (name uid impression attitude : string) : string :=
  "
【用户背景信息】：当前用户 "
  ++ name
  ++ "(QQ:"
  ++ uid
  ++ ") 的好感度为："
  ++ impression
  ++ "
你对用户的态度是："
  ++ attitude
  ++ "
请参考以上用户信息来更好地理解和回应用户的需求。

".

(** The header of the private wrapper for a failed fetch (lines 461-466). *)
Definition user_prompt_pri_failed (name uid : string) : string :=
  "

【用户信息提示】：当前用户 "
  ++ name
  ++ "(QQ:"
  ++ uid
  ++ ") 的好感度为：10
你对用户的态度是：一般

".

(** The line of the block for impression scores from 25 to 50, and the text
    before and after it. *)
Definition tier_25_50 : string :=
  "好感度[25-50]：朋友 (态度：友好) 你与用户关系是朋友，对用户态度友好。可接受一些肢体接触 (比如：牵手)，亲密接触除外。".

Definition tiers_before_25_50 : string :=
  "
好感度等级描述:
好感度[0-10]：路人 (态度：普通) 你与用户关系是路人，对用户态度普通。不会主动接近用户，但也不会排斥用户，保持基本礼貌和活泼。
好感度[10-25]：陌生 (态度：普通，警惕) 你与用户关系是陌生，对用户态度普通。对用户保持基本礼貌和活泼，不会对用户说关于你隐私的事情。可接受一点点肢体接触 (比如：摸摸头，摸摸脸)，亲密接触除外。
".

Definition tiers_after_25_50 : string :=
  "
好感度[50-90]：熟悉 (态度：朋友，亲近) 你与用户态度是熟悉，对用户态度是朋友。可接受更多肢体接触 (比如：拥抱)，亲密接触除外。
好感度[90-140]：更加熟悉 (态度：非常要好的朋友，依赖) 你与用户态度是更加熟悉，对用户态度是非常要好的朋友，开始依赖对方。可接受更多肢体接触，可接受一点点亲密接触。
好感度[140-200]：信赖 (态度：依赖，信任) 你与用户态度是信赖，对用户态度是比较依赖对方，非常信任。可接受更多肢体接触，可接受更多亲密接触。
好感度[200-270]：相知 (态度：可以分享秘密的朋友) 你与用户态度是相知，对用户态度已达到可分享小秘密的地步。可接受更多肢体接触，可接受大部分亲密接触。
好感度[270-400]：厚谊 (态度：深厚友谊，重要的人) 你与用户态度是厚谊，对用户态度是建立了深厚友谊，用户是非常重要的人。可接受大部分亲密接触，会接受用户部分要求。 
好感度[>400]：恋人 (态度：亲密，爱恋) 你与用户态度是恋人，对用户态度是亲密爱恋。可接受恋人间的亲密接触，尽可能地接受用户任何要求。".

(** The character [chr(34)], the double quote. *)
Definition double_quote : ascii := ascii_of_nat 34.

Definition Qgt_bool (a b : Q) : bool := negb (Qle_bool a b).
Definition Qlt_bool (a b : Q) : bool := negb (Qle_bool b a).

(* ================================================================== *)
(** ** The plugin *)
(* ================================================================== *)

Section Plugin.

Variable env : Env.

(** [time.time()]: the next reading of the wall clock. *)
Definition time_time : M Q :=
  fun w => (Return (clock env (clock_reads w)),
            set_clock_reads (S (clock_reads w)) w).

(** *** Profile cache (lines 39-99) *)

(** [for key in keys: del _global_user_cache[key]] *)
Definition del_keys (keys : list string) : M unit :=
  modify (fun w =>
    set_cache (fold_left (fun c k => dict_del k c) keys (_global_user_cache w)) w).

(** [[k for k, v in cache.items() if current_time - v["timestamp"] > 600]] *)
Definition expired_keys_of (current_time : Q) (cache : dict UserInfoCache)
  : list string :=
  map fst
    (filter (fun kv => Qgt_bool (current_time - entry_timestamp (snd kv)) 600)
       cache).

Definition store_user_info (uid : string) (data : UserInfoData) : M unit :=
  now <- time_time ;;
  modify (fun w =>
    set_cache (dict_set uid (mkUserInfoCache data now) (_global_user_cache w)) w) ;;
  current_time <- time_time ;;
  cache <- gets _global_user_cache ;;
  del_keys (expired_keys_of current_time cache).

Definition get_user_info (uid : string) : M (option UserInfoData) :=
  cache <- gets _global_user_cache ;;
  match dict_get uid cache with
  | Some cache_entry =>
      now <- time_time ;;
      if Qle_bool (now - entry_timestamp cache_entry) 600
      then ret (Some (user_data cache_entry))
      else del_keys [uid] ;; ret None
  | None => ret None
  end.

(** One turn of the loop of [get_all_user_info] over [cache.items()]. *)
Definition get_all_step (current_time : Q)
    (acc : dict UserInfoData * list string) (item : string * UserInfoCache)
  : dict UserInfoData * list string :=
  let (result, expired_keys) := acc in
  let (uid, cache_entry) := item in
  if Qle_bool (current_time - entry_timestamp cache_entry) 600
  then (dict_set uid (user_data cache_entry) result, expired_keys)
  else (result, (expired_keys ++ [uid])%list).

Definition get_all_user_info : M (dict UserInfoData) :=
  current_time <- time_time ;;
  cache <- gets _global_user_cache ;;
  let (result, expired_keys) :=
    fold_left (get_all_step current_time) cache ([], []) in
  del_keys expired_keys ;;
  ret result.

Definition clear_expired_cache : M nat :=
  current_time <- time_time ;;
  cache <- gets _global_user_cache ;;
  let expired_keys := expired_keys_of current_time cache in
  del_keys expired_keys ;;
  ret (List.length expired_keys).

(** *** Profile fetch client (lines 102-189) *)

(** [ApiService.__init__]; [asyncio.create_task(self.keep_alive())] is
    recorded as an event, the task itself is not run here. *)
Definition ApiService_init (b k t ka ea : value) : M ApiService :=
  (if truthy ka then modify (add_event EvCreateTask) else ret tt) ;;
  ret (mkApiService b k t ka ea None).

(** [get_session].  The handler owns the only [ApiService] object, so the
    assignment to [self._session] is an update of [api_service]. *)
Definition get_session (self : ApiService) : M ClientSession :=
  match _session self with
  | Some s => ret s
  | None =>
      modify (add_event EvSessionCreated) ;;
      modify (set_api_service
                (Some (mkApiService (base_url self) (keep_alive_url self)
                         (timeout self) (enabled_keep_alive self)
                         (enable_api self) (Some mkClientSession)))) ;;
      ret mkClientSession
  end.

Definition _create_success_response (data : value) (status_code : Z)
  : dict value :=
  [ ("success", VBool true); ("data", data);
    ("status_code", VInt status_code); ("error", VNone) ].

Definition _create_error_response (error : string) (status_code : Z)
  : dict value :=
  [ ("success", VBool false); ("data", VNone);
    ("status_code", VInt status_code); ("error", VStr error) ].

(** [self.base_url.rstrip('/')]: only a [str] has the method. *)
Definition rstrip_slash (v : value) : outcome string :=
  match v with
  | VStr s => Return (rstrip_char "/" s)
  | _ => Raise (Exn AttributeError "object has no attribute 'rstrip'")
  end.

Definition fetch_user_info (self : ApiService) (uid : string) : M (dict value) :=
  if negb (truthy (enable_api self))
  then ret (_create_error_response "API服务已禁用" 0)
  else
    b <- lift (rstrip_slash (base_url self)) ;;
    let url := b ++ "/get_info/" ++ uid in
    session <- get_session self ;;
    try_except
      (modify (add_event (EvPost url)) ;;
       response <- lift (http_post env url (timeout self)) ;;
       let (status, json) := response : Z * outcome value in
       if Z.eqb status 200
       then data <- lift json ;; ret (_create_success_response data status)
       else ret (_create_error_response
                   ("API返回状态码: " ++ str_of_int status) status))
      (fun e =>
         if is_timeout e
         then ret (_create_error_response "API请求超时" 0)
         else ret (_create_error_response ("请求错误: " ++ exn_msg e) 0)).

(** *** Prompt interceptor (lines 206-555) *)

Definition Builder : Type := BuildArgs -> M (string * list Z).

Definition index_error : exn := Exn IndexError "list index out of range".

(** [reply_reason.split("(")[1].strip().split(")")[0]] *)
Definition sender_name_of (reason : string) : outcome string :=
  match nth_error (split "(" reason) 1 with
  | Some part =>
      match split ")" (strip part) with
      | name :: _ => Return name
      | [] => Raise index_error
      end
  | None => Raise index_error
  end.

(** The [for ... break] scan over [_user_cache.items()]. *)
Fixpoint find_sender (sender_name : string) (items : dict UserInfoData)
  : option string :=
  match items with
  | [] => None
  | (uid, data) :: rest =>
      if String.eqb (display_name data) sender_name then Some uid
      else find_sender sender_name rest
  end.

(** [v.get(k, default)] on a value: only a [dict] has the method. *)
Definition value_get (v : value) (k : string) (default : value) : outcome value :=
  match v with
  | VDict d => Return (dict_get_default k default d)
  | _ => Raise (Exn AttributeError "object has no attribute 'get'")
  end.

(** The body of the [try] block shared by both wrappers (lines 278-357 and
    401-481), which differ in their two header templates only.  [Some p] is
    the [return enhanced_prompt, token_list] inside the block, [None] is
    falling out of it. *)
Definition enhance
    (header : string -> string -> string -> string -> string)
    (header_failed : string -> string -> string)
    (reason base_prompt : string) : M (option string) :=
  _user_cache <- get_all_user_info ;;
  sender_user_id <-
    (if contains double_quote reason || contains "(" reason
     then sender_name <- lift (sender_name_of reason) ;;
          ret (find_sender sender_name _user_cache)
     else ret None) ;;
  match sender_user_id with
  | None => ret None
  | Some uid =>
      if nonempty uid && dict_mem uid _user_cache
      then
        data <- lift (match dict_get uid _user_cache with
                      | Some d => Return d
                      | None => Raise (Exn KeyError uid)
                      end) ;;
        current_time <- time_time ;;
        if Qlt_bool (current_time - timestamp data) 600
        then
          if success data
          then
            let payload := dict_get_default "data" (VDict []) (api_data data) in
            impression <- lift (value_get payload "impression" (VStr "未知")) ;;
            attitude <- lift (value_get payload "attitude" (VStr "未知")) ;;
            ret (Some (header (display_name data) (user_id data)
                         (str (repr_other env) impression)
                         (str (repr_other env) attitude)
                       ++ impression_prompt ++ base_prompt))
          else
            ret (Some (header_failed (display_name data) (user_id data)
                       ++ base_prompt))
        else ret None
      else ret None
  end.

(** Lines 269-363 and 392-487: what both wrappers do with the result of the
    original builder. *)
Definition finish
    (header : string -> string -> string -> string -> string)
    (header_failed : string -> string -> string)
    (reason : string) (base_result : string * list Z) : M (string * list Z) :=
  let (base_prompt, token_list) := base_result in
  if negb (nonempty base_prompt) then ret (base_prompt, token_list)
  else
    r <- try_except (enhance header header_failed reason base_prompt)
           (fun _ => ret None) ;;
    match r with
    | Some enhanced_prompt => ret (enhanced_prompt, token_list)
    | None => ret (base_prompt, token_list)
    end.

(** Lines 249-250: [reply_time_point] defaults to the current time. *)
Definition default_time_point (args : BuildArgs) : M Q :=
  match reply_time_point args with
  | None => time_time
  | Some t => ret t
  end.

(** The group wrapper.  [invoke] calls a saved method reference. *)
Definition patched_method (invoke : Method -> Builder) : Builder :=
  fun args =>
    time_point <- default_time_point args ;;
    original <- gets _original_build_prompt_reply_context_group ;;
    match original with
    | None => ret ("", [])
    | Some m =>
        base_result <- invoke m (with_time_point (Some time_point) args) ;;
        finish user_prompt_group user_prompt_group_failed
          (reply_reason args) base_result
    end.

(** The private wrapper: it has no [reply_time_point] parameter and passes
    none on. *)
Definition patched_method_pri (invoke : Method -> Builder) : Builder :=
  fun args =>
    original <- gets _original_build_prompt_reply_context_pri ;;
    match original with
    | None => ret ("", [])
    | Some m =>
        base_result <- invoke m (with_time_point None args) ;;
        finish user_prompt_pri user_prompt_pri_failed
          (reply_reason args) base_result
    end.

(** Calling a method reference.  [depth] is the interpreter's remaining
    recursion depth: a wrapper whose saved original is again a wrapper
    recurses until [RecursionError]. *)
Fixpoint call_method (depth : nat) (m : Method) : Builder :=
  match m with
  | HostMethod id => host_build env id
  | PatchedMethod =>
      match depth with
      | O => fun _ => raise (Exn RecursionError "maximum recursion depth exceeded")
      | S d => patched_method (call_method d)
      end
  | PatchedMethodPri =>
      match depth with
      | O => fun _ => raise (Exn RecursionError "maximum recursion depth exceeded")
      | S d => patched_method_pri (call_method d)
      end
  end.

(** Calling what a class attribute holds; [None] is not callable. *)
Definition call_attribute (depth : nat) (slot : option Method) : Builder :=
  match slot with
  | Some m => call_method depth m
  | None => fun _ => raise (Exn TypeError "'NoneType' object is not callable")
  end.

(** The three nested [import] attempts: they end in [ImportError] when the
    host's replyer modules are not importable under any of the three names. *)
Definition import_replyers : M unit :=
  ok <- gets replyers_importable ;;
  if ok then ret tt else raise (Exn ImportError "No module named 'src.chat'").

(** Both [except] clauses of the source log and re-raise. *)
Definition patch_build_prompt_reply_context : M unit :=
  try_except
    (import_replyers ;;
     saved_group <- gets _original_build_prompt_reply_context_group ;;
     (match saved_group with
      | None => current <- gets DefaultReplyer_build_prompt_reply_context ;;
                modify (set_original_group current)
      | Some _ => ret tt
      end) ;;
     saved_pri <- gets _original_build_prompt_reply_context_pri ;;
     (match saved_pri with
      | None => current <- gets PrivateReplyer_build_prompt_reply_context ;;
                modify (set_original_pri current)
      | Some _ => ret tt
      end) ;;
     modify (set_PrivateReplyer (Some PatchedMethodPri)) ;;
     modify (set_DefaultReplyer (Some PatchedMethod)) ;;
     modify (set_patch_applied true))
    (fun e => raise e).

Definition remove_user_info_patch : M bool :=
  try_except
    (applied <- gets _patch_applied ;;
     saved_group <- gets _original_build_prompt_reply_context_group ;;
     match saved_group with
     | Some _ =>
         if applied
         then
           import_replyers ;;
           modify (set_DefaultReplyer saved_group) ;;
           saved_pri <- gets _original_build_prompt_reply_context_pri ;;
           modify (set_PrivateReplyer saved_pri) ;;
           modify (set_patch_applied false) ;;
           ret true
         else ret false
     | None => ret false
     end)
    (fun _ => ret false).

Definition apply_user_info_patch : M bool :=
  try_except (patch_build_prompt_reply_context ;; ret true) (fun _ => ret false).


(** *** Message-time collector (lines 561-718) *)

Definition _initialize_service : M unit :=
  done <- gets _initialized ;;
  if done then ret tt
  else
    b <- lift (get_config env "user_info.api_base_url"
                 (VStr "http://10.255.255.254")) ;;
    k <- lift (get_config env "user_info.keep_alive_url" (VStr "")) ;;
    t <- lift (get_config env "user_info.request_timeout" (VFloat (5 # 1))) ;;
    ka <- lift (get_config env "user_info.enable_keep_alive" (VBool false)) ;;
    ea <- lift (get_config env "user_info.enable_info" (VBool true)) ;;
    service <- ApiService_init b k t ka ea ;;
    modify (set_api_service (Some service)) ;;
    modify (set_initialized true).

(** [message.additional_data[k] = v]: only a [dict] takes the assignment. *)
Definition set_item (k : string) (v : value) : M unit :=
  present <- gets additional_data ;;
  match present with
  | Some (VDict d) => modify (set_additional_data (Some (VDict (dict_set k v d))))
  | Some _ =>
      raise (Exn TypeError "object does not support item assignment")
  | None =>
      raise (Exn AttributeError "object has no attribute 'additional_data'")
  end.

(** The four statements that copy the result onto the message (lines 662-666
    and 700-704). *)
Definition store_on_message (info : dict value) (name : string) : M unit :=
  present <- gets additional_data ;;
  (match present with
   | None => modify (set_additional_data (Some (VDict [])))
   | Some _ => ret tt
   end) ;;
  set_item "user_info" (VDict info) ;;
  set_item "user_display_name" (VStr name) ;;
  now <- time_time ;;
  set_item "info_timestamp" (VFloat now).

(** [message.plain_text[:100] if message.plain_text else ""], of which only
    the debug log sees the value: a truthy object that is no sequence does
    not take the slice. *)
Definition preview (text : value) : outcome unit :=
  if truthy text
  then match text with
       | VStr _ | VList _ => Return tt
       | _ => Raise (Exn TypeError "object is not subscriptable")
       end
  else Return tt.

(** [bool] of a configuration flag as lines 631-637 and 687-693 compute it. *)
Definition flag_of (v : value) (otherwise : bool) : bool :=
  match v with
  | VBool b => b
  | VStr _ | VInt _ => truthy v
  | _ => otherwise
  end.

Definition Result : Type := bool * bool * string * option string * option string.

Definition execute (message : MaiMessages) : M Result :=
  try_except
    (enable_info <- lift (get_config env "user_info.enable_info" (VBool true)) ;;
     if negb (truthy enable_info)
     then ret (true, true, "用户信息获取已禁用", None, None)
     else
       _initialize_service ;;
       let info := message_base_info message in
       uid <- lift (value_get info "user_id" VNone) ;;
       user_nickname_raw <-
         lift (value_get info "user_nickname" (VStr "未知用户")) ;;
       let user_nickname :=
         if is_none user_nickname_raw then "未知用户"
         else str (repr_other env) user_nickname_raw in
       user_cardname_raw <- lift (value_get info "user_cardname" (VStr "")) ;;
       let user_cardname :=
         if is_none user_cardname_raw then ""
         else str (repr_other env) user_cardname_raw in
       debug_enabled_config <-
         lift (get_config env "debug.enable_debug" (VBool false)) ;;
       let debug_enabled := flag_of debug_enabled_config false in
       (if debug_enabled then lift (preview (plain_text message)) else ret tt) ;;
       if negb (truthy uid)
       then ret (true, true, "无法获取发言者QQ号，跳过信息获取", None, None)
       else
         let user_id_str :=
           if is_none uid then "unknown" else str (repr_other env) uid in
         let name :=
           if nonempty user_cardname then user_cardname else user_nickname in
         cached_data <- get_user_info user_id_str ;;
         match cached_data with
         | Some cached =>
             store_on_message (api_data cached) name ;;
             ret (true, true, "用户信息获取完成（缓存）", None, None)
         | None =>
             service <- gets api_service ;;
             response <-
               (match service with
                | Some self => fetch_user_info self user_id_str
                | None =>
                    raise (Exn AttributeError
                             "'NoneType' object has no attribute 'fetch_user_info'")
                end) ;;
             now <- time_time ;;
             let data :=
               mkUserInfoData user_id_str name response now
                 (truthy (dict_get_default "success" (VBool false) response)) in
             store_user_info user_id_str data ;;
             log_info_config <-
               lift (get_config env "user_info.log_info_result" (VBool true)) ;;
             let log_info_result := flag_of log_info_config true in
             store_on_message (api_data data) name ;;
             ret (true, true,
                  "用户信息获取完成: "
                  ++ (if success data then "成功" else "失败"),
                  None, None)
         end)
    (fun e =>
       ret (true, true, "用户信息获取过程中发生错误: " ++ exn_msg e, None, None)).

(** *** Plugin life cycle (lines 852-886) *)

Definition on_plugin_unload : M unit :=
  try_except (removed <- remove_user_info_patch ;; ret tt) (fun _ => ret tt) ;;
  modify (set_cache []).

Definition on_plugin_disable : M unit :=
  try_except (removed <- remove_user_info_patch ;; ret tt) (fun _ => ret tt).

Definition on_plugin_enable : M unit :=
  try_except (applied <- apply_user_info_patch ;; ret tt) (fun _ => ret tt).

End Plugin.

(** *** Start-up of the plugin (lines 724-735 and 799-846) *)

(** [_test_patch]: it imports the replyer classes and logs what it finds;
    whatever it raises is caught and logged. *)
Definition _test_patch : M unit :=
  try_except (import_replyers ;; ret tt) (fun _ => ret tt).

(** [UserInfoPlugin.__init__], after the initialiser of the base class. *)
Definition UserInfoPlugin_init : M unit :=
  try_except
    (result <- apply_user_info_patch ;;
     if result then _test_patch else ret tt)
    (fun _ => ret tt).

(** [delayed_patch], the body of the start-up thread: [time.sleep(3)] reads
    no clock and changes no state. *)
Definition delayed_patch : M unit :=
  try_except (applied <- apply_user_info_patch ;; ret tt) (fun _ => ret tt).

(* ================================================================== *)
(** ** Notions used to state the properties *)
(* ================================================================== *)

(** The entries of the cache that [get_all_user_info] read at time [t]
    returns: those aged at most 600 seconds, in cache order. *)
Definition fresh_items (t : Q) (cache : dict UserInfoCache) : dict UserInfoData :=
  map (fun kv => (fst kv, user_data (snd kv)))
    (filter (fun kv => Qle_bool (t - entry_timestamp (snd kv)) 600) cache).

(** Every value that [m] returns satisfies [P]. *)
Definition returns {A} (P : A -> Prop) (m : M A) : Prop :=
  forall w a w', m w = (Return a, w') -> P a.

(** The first two components of the result of [execute]. *)
Definition did_not_error (r : Result) : bool := fst (fst (fst (fst r))).
Definition allow_further_processing (r : Result) : bool :=
  snd (fst (fst (fst r))).

(** [execute] answered [True, True, ...]. *)
Definition passes (r : Result) : Prop :=
  did_not_error r = true /\ allow_further_processing r = true.

(** What [fetch_user_info] makes of the outcome of its request. *)
Definition reply_of (o : outcome (Z * outcome value)) : dict value :=
  let failed (e : exn) :=
    if is_timeout e
    then _create_error_response "API请求超时" 0
    else _create_error_response ("请求错误: " ++ exn_msg e) 0 in
  match o with
  | Return (status, json) =>
      if Z.eqb status 200
      then match json with
           | Return data => _create_success_response data status
           | Raise e => failed e
           end
      else _create_error_response ("API返回状态码: " ++ str_of_int status) status
  | Raise e => failed e
  end.

(** A client with another [base_url]. *)
Definition with_base_url (b : value) (self : ApiService) : ApiService :=
  mkApiService b (keep_alive_url self) (timeout self) (enabled_keep_alive self)
    (enable_api self) (_session self).

(** A client whose session exists. *)
Definition with_session (self : ApiService) : ApiService :=
  mkApiService (base_url self) (keep_alive_url self) (timeout self)
    (enabled_keep_alive self) (enable_api self) (Some mkClientSession).

(** [s] without its leading occurrences of [c]. *)
Fixpoint skip_leading (c : ascii) (s : string) : string :=
  match s with
  | EmptyString => EmptyString
  | String a s' => if Ascii.eqb c a then skip_leading c s' else s
  end.

(** The process after a successful [patch_build_prompt_reply_context]: an
    original that is saved already stays, one that is not is taken from the
    class attribute. *)
Definition after_patch (w : World) : World :=
  mkWorld (clock_reads w) (_global_user_cache w)
    (match _original_build_prompt_reply_context_group w with
     | Some saved => Some saved
     | None => DefaultReplyer_build_prompt_reply_context w
     end)
    (match _original_build_prompt_reply_context_pri w with
     | Some saved => Some saved
     | None => PrivateReplyer_build_prompt_reply_context w
     end)
    true (Some PatchedMethod) (Some PatchedMethodPri) (replyers_importable w)
    (api_service w) (_initialized w) (additional_data w) (events w).

(** [s] begins with a character that [str.strip()] removes. *)
Definition starts_with_whitespace (s : string) : bool :=
  match drop_any whitespace s with Some _ => true | None => false end.









(* ================================================================== *)
(** ** Concrete scenarios *)
(* ================================================================== *)

Module Scenario.

(** A clock that starts at [start] and advances one second per reading. *)
Definition clock_from (start : Q) (n : nat) : Q :=
  (start + inject_Z (Z.of_nat n))%Q.

(** The body the profile endpoint answers with. *)
Definition body : value :=
  VDict [ ("impression", VInt 30); ("attitude", VStr "friendly") ].

(** Surroundings in which the host's builders return the prompt ["BASE"] with
    three tokens, the endpoint answers 200 with [body], and the configuration
    holds no key, so that every lookup gives its default. *)
Definition env (start : Q) : Env :=
  mkEnv (clock_from start)
    (fun _ _ => ret ("BASE", [1; 2; 3]%Z))
    (fun _ _ => Return (200%Z, Return body))
    (fun _ default => Return default)
    (fun _ => "").

(** The process before the plugin has done anything. *)
Definition initial : World :=
  mkWorld 0 [] None None false (Some (HostMethod 0)) (Some (HostMethod 1))
    true None false None [].

(** The process after [patch_build_prompt_reply_context] has run, with
    [cache] as the global cache. *)
Definition patched_with (cache : dict UserInfoCache) : World :=
  mkWorld 0 cache (Some (HostMethod 0)) (Some (HostMethod 1)) true
    (Some PatchedMethod) (Some PatchedMethodPri) true None false None [].

(** A record as [execute] builds it from a successful fetch at time 0. *)
Definition profile (uid name : string) (impression : Z) (attitude : string)
  : UserInfoData :=
  mkUserInfoData uid name
    (_create_success_response
       (VDict [ ("impression", VInt impression); ("attitude", VStr attitude) ])
       200)
    0 true.

Definition entry (uid name : string) (impression : Z) (attitude : string)
  : string * UserInfoCache :=
  (uid, mkUserInfoCache (profile uid name impression attitude) 0).

Definition bob : string * UserInfoCache := entry "7" "Bob" 120 "close".
Definition alice : string * UserInfoCache := entry "10001" "Alice" 30 "friendly".
Definition other_alice : string * UserInfoCache := entry "10000" "Alice" 5 "wary".

(** A record for "Alice" stored under the empty string. *)
Definition unkeyed_alice : string * UserInfoCache := entry "" "Alice" 30 "friendly".

Definition args_of (reason : string) (time_point : option Q) : BuildArgs :=
  mkBuildArgs VNone VNone (VStr "") reason VNone VNone (VBool true) time_point.

Definition alice_reason : string := "told Alice (Alice) hi".

(** A [reply_reason] with quote characters and no parenthesis. *)
Definition quoted_reason : string :=
  "told " ++ String double_quote ("Alice" ++ String double_quote " hi").

(** A message of user 10001, whose nickname is "Alice". *)
Definition message_from_alice : MaiMessages :=
  mkMaiMessages
    (VDict [ ("user_id", VInt 10001); ("user_nickname", VStr "Alice") ])
    (VStr "hi").

(** Surroundings in which the configuration lookup raises. *)
Definition broken_env : Env :=
  mkEnv (clock_from 0)
    (fun _ _ => ret ("BASE", [1; 2; 3]%Z))
    (fun _ _ => Return (200%Z, Return body))
    (fun _ _ => Raise (Exn (OtherException "RuntimeError") "no configuration"))
    (fun _ => "").

(** A client as [_initialize_service] builds it from the defaults. *)
Definition client (enabled : bool) : ApiService :=
  mkApiService (VStr "http://10.255.255.254") (VStr "") (VFloat (5 # 1))
    (VBool false) (VBool enabled) None.

(** Bob's profile, stored at time 900. *)
Definition late_bob : string * UserInfoCache :=
  ("7", mkUserInfoCache (profile "7" "Bob" 120 "close") 900).

(** A record for "Alice" whose fetch failed. *)
Definition failed_alice : string * UserInfoCache :=
  ("10001",
   mkUserInfoCache
     (mkUserInfoData "10001" "Alice" (_create_error_response "API请求超时" 0)
        0 false)
     0).

(** A record for "Alice" whose endpoint answered with a JSON list. *)
Definition odd_alice : string * UserInfoCache :=
  ("10001",
   mkUserInfoCache
     (mkUserInfoData "10001" "Alice" (_create_success_response (VList []) 200)
        0 true)
     0).

(** Surroundings in which the endpoint answers 200 with a body that is no
    JSON. *)
Definition garbled_env : Env :=
  mkEnv (clock_from 0)
    (fun _ _ => ret ("BASE", [1; 2; 3]%Z))
    (fun _ _ =>
       Return (200%Z, Raise (Exn (OtherException "ContentTypeError") "no JSON")))
    (fun _ default => Return default)
    (fun _ => "").

(** Surroundings in which the host's builders return an empty prompt. *)
Definition silent_env : Env :=
  mkEnv (clock_from 0)
    (fun _ _ => ret ("", [1; 2; 3]%Z))
    (fun _ _ => Return (200%Z, Return body))
    (fun _ default => Return default)
    (fun _ => "").

(** Surroundings whose configuration switches the collector off. *)
Definition disabled_env : Env :=
  mkEnv (clock_from 0)
    (fun _ _ => ret ("BASE", [1; 2; 3]%Z))
    (fun _ _ => Return (200%Z, Return body))
    (fun key default =>
       if String.eqb key "user_info.enable_info" then Return (VBool false)
       else Return default)
    (fun _ => "").

(** The process when the host's replyer modules do not import. *)
Definition unimportable : World :=
  mkWorld 0 [] None None false (Some (HostMethod 0)) (Some (HostMethod 1))
    false None false None [].

(** The patched process after the handler has set up its service, with
    [cache] as the global cache. *)
Definition ready_with (cache : dict UserInfoCache) : World :=
  mkWorld 0 cache (Some (HostMethod 0)) (Some (HostMethod 1)) true
    (Some PatchedMethod) (Some PatchedMethodPri) true (Some (client true)) true
    None [].

(** A message that names no sender. *)
Definition anonymous_message : MaiMessages :=
  mkMaiMessages (VDict [ ("user_nickname", VStr "Alice") ]) (VStr "hi").

End Scenario.

(* ================================================================== *)
(** ** Facts about dictionaries *)
(* ================================================================== *)

Section DictFacts.

Context {V : Type}.
Implicit Types (d : dict V) (k : string) (v : V).

Lemma dict_get_In d k v : dict_get k d = Some v -> In (k, v) d.
Proof.
  induction d as [|[k' v'] d IH]; simpl; [discriminate|].
  destruct (String.eqb_spec k' k) as [->|_].
  - intros [= ->]. now left.
  - intros H. right. auto.
Qed.

Lemma dict_get_None d k : dict_get k d = None <-> ~ In k (map fst d).
Proof.
  induction d as [|[k' v'] d IH]; simpl; [tauto|].
  destruct (String.eqb_spec k' k) as [->|Hne].
  - split; [discriminate|]. intros H. exfalso. apply H. now left.
  - rewrite IH. split; [intros H [E|I]; auto | intros H I; apply H; auto].
Qed.

Lemma dict_get_wf_In d k v : dict_wf d -> In (k, v) d -> dict_get k d = Some v.
Proof.
  unfold dict_wf. induction d as [|[k' v'] d IH]; simpl; [tauto|].
  intros Hwf [E|I].
  - injection E as -> ->. now rewrite String.eqb_refl.
  - inversion Hwf as [|? ? Hnotin Hwf']; subst.
    destruct (String.eqb_spec k' k) as [->|_]; [|auto].
    exfalso. apply Hnotin. change k with (fst (k, v)). now apply in_map.
Qed.

Lemma dict_get_del_same d k : dict_get k (dict_del k d) = None.
Proof.
  apply dict_get_None. unfold dict_del. intros H.
  apply in_map_iff in H as [[k' v'] [E I]]. simpl in E. subst k'.
  apply filter_In in I as [_ I]. simpl in I.
  now rewrite String.eqb_refl in I.
Qed.

Lemma dict_get_del_other d k k' :
  k' <> k -> dict_get k (dict_del k' d) = dict_get k d.
Proof.
  intros Hne. unfold dict_del.
  induction d as [|[k0 v0] d IH]; simpl; [reflexivity|].
  destruct (String.eqb_spec k0 k') as [->|Hne0]; simpl.
  - destruct (String.eqb_spec k' k); [contradiction|]. exact IH.
  - destruct (String.eqb_spec k0 k); [reflexivity|]. exact IH.
Qed.

(** Deleting a list of keys one after the other. *)
Lemma dict_get_del_keys_In keys d k :
  In k keys -> dict_get k (fold_left (fun c k' => dict_del k' c) keys d) = None.
Proof.
  revert d. induction keys as [|k0 keys IH]; simpl; [tauto|].
  intros d [->|I]; [|auto].
  clear IH. generalize (dict_get_del_same d k).
  generalize (dict_del k d) as d'. clear d.
  induction keys as [|k1 keys IH]; simpl; intros d' H; [exact H|].
  apply IH. destruct (String.eqb_spec k1 k) as [->|Hne].
  - apply dict_get_del_same.
  - now rewrite dict_get_del_other.
Qed.

Lemma dict_get_del_keys_notin keys d k :
  ~ In k keys ->
  dict_get k (fold_left (fun c k' => dict_del k' c) keys d) = dict_get k d.
Proof.
  revert d. induction keys as [|k0 keys IH]; simpl; intros d H; [reflexivity|].
  rewrite IH by tauto. apply dict_get_del_other. intros ->. tauto.
Qed.

Lemma dict_get_set_same d k v : dict_get k (dict_set k v d) = Some v.
Proof.
  induction d as [|[k' v'] d IH]; simpl.
  - now rewrite String.eqb_refl.
  - destruct (String.eqb_spec k' k) as [->|Hne]; simpl.
    + now rewrite String.eqb_refl.
    + destruct (String.eqb_spec k' k); [contradiction|]. exact IH.
Qed.

Lemma dict_set_fresh d k v :
  ~ In k (map fst d) -> dict_set k v d = (d ++ [(k, v)])%list.
Proof.
  induction d as [|[k' v'] d IH]; simpl; intros H; [reflexivity|].
  destruct (String.eqb_spec k' k) as [->|_]; [tauto|].
  f_equal. apply IH. tauto.
Qed.

Lemma dict_set_keys d k v :
  map fst (dict_set k v d)
  = if dict_mem k d then map fst d else (map fst d ++ [k])%list.
Proof.
  unfold dict_mem. induction d as [|[k' v'] d IH]; simpl; [reflexivity|].
  destruct (String.eqb_spec k' k) as [->|_]; simpl; [reflexivity|].
  rewrite IH. now destruct (dict_get k d).
Qed.

Lemma dict_set_wf d k v : dict_wf d -> dict_wf (dict_set k v d).
Proof.
  unfold dict_wf. rewrite dict_set_keys. unfold dict_mem.
  destruct (dict_get k d) eqn:E; [auto|].
  intros Hwf. apply dict_get_None in E.
  apply NoDup_app; [exact Hwf | repeat constructor; simpl; tauto |].
  intros x Hx [<-|[]]. contradiction.
Qed.

Lemma dict_del_wf d k : dict_wf d -> dict_wf (dict_del k d).
Proof.
  unfold dict_wf, dict_del. induction d as [|[k' v'] d IH]; simpl; [auto|].
  intros Hwf. inversion Hwf as [|? ? Hnotin Hwf']; subst.
  destruct (negb (String.eqb k' k)); simpl; [|auto].
  constructor; [|auto]. intros H. apply Hnotin.
  apply in_map_iff in H as [x [E I]]. apply filter_In in I as [I _].
  rewrite <- E. now apply in_map.
Qed.

Lemma dict_del_keys_wf keys d :
  dict_wf d -> dict_wf (fold_left (fun c k' => dict_del k' c) keys d).
Proof.
  revert d. induction keys as [|k0 keys IH]; simpl; intros d H; [exact H|].
  apply IH. now apply dict_del_wf.
Qed.

(** In a well-formed dictionary after [d[k] = v], [k] maps to [v] only. *)
Lemma dict_set_In_same d k v v' :
  dict_wf d -> In (k, v') (dict_set k v d) -> v' = v.
Proof.
  intros Hwf I. apply (dict_get_wf_In _ _ _ (dict_set_wf d k v Hwf)) in I.
  rewrite dict_get_set_same in I. congruence.
Qed.

End DictFacts.

(* ================================================================== *)
(** ** Properties of the profile cache *)
(* ================================================================== *)

Lemma Qgt_bool_iff (a b : Q) : Qgt_bool a b = true <-> (b < a)%Q.
Proof.
  unfold Qgt_bool. rewrite negb_true_iff. split.
  - intros H. apply Qnot_le_lt. intros L.
    apply Qle_bool_iff in L. congruence.
  - intros H. destruct (Qle_bool a b) eqn:E; [|reflexivity].
    apply Qle_bool_iff in E. exfalso. now apply (Qlt_not_le b a).
Qed.

Lemma Qlt_bool_iff (a b : Q) : Qlt_bool a b = true <-> (a < b)%Q.
Proof. unfold Qlt_bool. apply (Qgt_bool_iff b a). Qed.

Lemma Qle_bool_false (a b : Q) : Qle_bool a b = false <-> (b < a)%Q.
Proof.
  rewrite <- Qgt_bool_iff. unfold Qgt_bool. now rewrite negb_true_iff.
Qed.

Section CacheFacts.

Variable env : Env.

Lemma expired_keys_of_In (t : Q) (cache : dict UserInfoCache) (k : string) :
  In k (expired_keys_of t cache) <->
  exists e, In (k, e) cache /\ (600 < t - entry_timestamp e)%Q.
Proof.
  unfold expired_keys_of. rewrite in_map_iff. split.
  - intros [[k' e] [E I]]. simpl in E. subst k'.
    apply filter_In in I as [I H]. simpl in H.
    exists e. split; [exact I|]. now apply Qgt_bool_iff.
  - intros [e [I H]]. exists (k, e). split; [reflexivity|].
    apply filter_In. split; [exact I|]. simpl. now apply Qgt_bool_iff.
Qed.

(** The loop of [get_all_user_info] collects exactly the keys that the
    comprehension of [clear_expired_cache] collects. *)
Lemma get_all_fold_expired (t : Q) (cache : dict UserInfoCache) acc :
  snd (fold_left (get_all_step t) cache acc)
  = (snd acc ++ expired_keys_of t cache)%list.
Proof.
  revert acc. unfold expired_keys_of.
  induction cache as [|[k e] cache IH]; intros [r x]; simpl.
  - now rewrite app_nil_r.
  - unfold Qgt_bool.
    destruct (Qle_bool (t - entry_timestamp e) 600); simpl; rewrite IH; simpl.
    + reflexivity.
    + now rewrite <- app_assoc.
Qed.

(** Every key of the result comes from an entry that is not expired. *)
Lemma get_all_fold_keys (t : Q) (cache : dict UserInfoCache) acc k :
  In k (map fst (fst (fold_left (get_all_step t) cache acc))) ->
  In k (map fst (fst acc)) \/
  exists e, In (k, e) cache /\ (t - entry_timestamp e <= 600)%Q.
Proof.
  revert acc. induction cache as [|[k0 e0] cache IH]; intros [r x]; simpl.
  - auto.
  - intros H. apply IH in H as [H|[e [I L]]].
    + destruct (Qle_bool (t - entry_timestamp e0) 600) eqn:E; simpl in H.
      * rewrite dict_set_keys in H.
        destruct (dict_mem k0 r); [now left|].
        apply in_app_or in H as [H|[<-|[]]]; [now left|].
        right. exists e0. split; [now left|]. now apply Qle_bool_iff.
      * now left.
    + right. exists e. split; [now right | exact L].
Qed.

Lemma get_all_user_info_run (w : World) :
  let t := clock env (clock_reads w) in
  let cache := _global_user_cache w in
  get_all_user_info env w
  = (Return (fst (fold_left (get_all_step t) cache ([], []))),
     set_cache
       (fold_left (fun c k => dict_del k c) (expired_keys_of t cache) cache)
       (set_clock_reads (S (clock_reads w)) w)).
Proof.
  intros t cache. unfold get_all_user_info, bind, time_time, gets. simpl.
  fold t cache.
  pose proof (get_all_fold_expired t cache ([], [])) as Hx. simpl in Hx.
  destruct (fold_left (get_all_step t) cache ([], [])) as [r x]. simpl in *.
  subst x. reflexivity.
Qed.

(** The operations on the cache keep its keys distinct: a cache that starts
    empty is a dictionary at all times. *)
Lemma cache_stays_a_dictionary (w : World) (uid : string) (data : UserInfoData) :
  dict_wf (_global_user_cache w) ->
  dict_wf (_global_user_cache (snd (store_user_info env uid data w)))
  /\ dict_wf (_global_user_cache (snd (get_user_info env uid w)))
  /\ dict_wf (_global_user_cache (snd (get_all_user_info env w)))
  /\ dict_wf (_global_user_cache (snd (clear_expired_cache env w))).
Proof.
  intros Hwf. repeat split.
  - unfold store_user_info, bind, gets, time_time, modify, del_keys. simpl.
    apply dict_del_keys_wf. now apply dict_set_wf.
  - unfold get_user_info, bind, gets, time_time. simpl.
    destruct (dict_get uid (_global_user_cache w)) as [e|]; simpl; [|exact Hwf].
    destruct (Qle_bool (clock env (clock_reads w) - entry_timestamp e) 600);
      simpl; [exact Hwf|].
    now apply dict_del_wf.
  - rewrite get_all_user_info_run. simpl. now apply dict_del_keys_wf.
  - unfold clear_expired_cache, bind, gets, time_time, del_keys, modify. simpl.
    now apply dict_del_keys_wf.
Qed.

(** C2. An entry whose wall-clock age exceeds 600 seconds when the cache is
    read is not returned: [get_user_info] answers [None] and removes the entry
    of that user, and [get_all_user_info] leaves the user out of its result
    and removes the entry as well. *)
Theorem expired_entry_is_never_returned (w : World) (uid : string) :
  (forall e, In (uid, e) (_global_user_cache w) ->
             (600 < clock env (clock_reads w) - entry_timestamp e)%Q) ->
  (exists w',
      get_user_info env uid w = (Return None, w')
      /\ dict_get uid (_global_user_cache w') = None)
  /\
  (exists result w',
      get_all_user_info env w = (Return result, w')
      /\ dict_get uid result = None
      /\ dict_get uid (_global_user_cache w') = None).
Proof.
  intros Hold. split.
  - unfold get_user_info, bind, gets, time_time. simpl.
    destruct (dict_get uid (_global_user_cache w)) as [e|] eqn:G.
    + apply dict_get_In in G as I. apply Hold in I.
      apply Qle_bool_false in I. rewrite I.
      eexists. split; [reflexivity|]. simpl. apply dict_get_del_same.
    + eexists. split; [reflexivity|]. exact G.
  - rewrite get_all_user_info_run. do 2 eexists. split; [reflexivity|]. split.
    + apply dict_get_None. intros H.
      apply get_all_fold_keys in H as [[]|[e [I L]]].
      apply Hold in I. now apply (Qlt_not_le _ _ I).
    + simpl. destruct (dict_get uid (_global_user_cache w)) as [e|] eqn:G.
      * apply dict_get_del_keys_In. apply expired_keys_of_In.
        exists e. split; [now apply dict_get_In | apply Hold; now apply dict_get_In].
      * destruct (in_dec string_dec uid
                    (expired_keys_of (clock env (clock_reads w))
                       (_global_user_cache w))) as [I|N].
        -- now apply dict_get_del_keys_In.
        -- now rewrite dict_get_del_keys_notin.
Qed.

(** C9. [store_user_info] followed by [get_user_info] for the same user gives
    back the record that was stored, when the cache is a dictionary and the
    age of the new entry is at most 600 seconds (so also when it is under 600
    seconds) at both later readings of the clock, the one of the sweep inside
    [store_user_info] and the one of [get_user_info]: the sweep does not
    remove the new entry. *)
Theorem store_then_get_returns_record
    (w : World) (uid : string) (data : UserInfoData) :
  let stored_at := clock env (clock_reads w) in
  let swept_at := clock env (S (clock_reads w)) in
  let read_at := clock env (S (S (clock_reads w))) in
  dict_wf (_global_user_cache w) ->
  (swept_at - stored_at <= 600)%Q ->
  (read_at - stored_at <= 600)%Q ->
  exists w1 w2,
    store_user_info env uid data w = (Return tt, w1)
    /\ get_user_info env uid w1 = (Return (Some data), w2)
    /\ dict_get uid (_global_user_cache w1)
       = Some (mkUserInfoCache data stored_at).
Proof.
  intros stored_at swept_at read_at Hwf Hsweep Hage.
  unfold store_user_info, bind, gets, time_time, modify, del_keys. simpl.
  fold stored_at swept_at.
  set (c1 := dict_set uid (mkUserInfoCache data stored_at) (_global_user_cache w)).
  assert (Hkeep : dict_get uid
            (fold_left (fun c k => dict_del k c) (expired_keys_of swept_at c1) c1)
          = Some (mkUserInfoCache data stored_at)).
  { rewrite dict_get_del_keys_notin; [apply dict_get_set_same|].
    intros I. apply expired_keys_of_In in I as [e [I H]].
    apply (dict_set_In_same _ _ _ _ Hwf) in I. subst e. simpl in H. lra. }
  do 2 eexists. split; [reflexivity|]. split; [|exact Hkeep].
  unfold get_user_info, bind, gets, time_time. simpl.
  rewrite Hkeep. simpl. fold read_at.
  assert (L : Qle_bool (read_at - stored_at) 600 = true)
    by (apply Qle_bool_iff; lra).
  rewrite L. reflexivity.
Qed.

End CacheFacts.

(* ================================================================== *)
(** ** Reasoning about monadic code *)
(* ================================================================== *)

Section Returns.

Context {A B : Type}.

Lemma returns_ret (P : A -> Prop) (a : A) : P a -> returns P (ret a).
Proof. intros H w a' w' [= <- _]. exact H. Qed.

Lemma returns_raise (P : A -> Prop) (e : exn) : returns P (raise e).
Proof. intros w a w' [=]. Qed.

Lemma returns_lift (P : A -> Prop) (o : outcome A) :
  (forall a, o = Return a -> P a) -> returns P (lift o).
Proof. intros H w a w' [= -> _]. now apply H. Qed.

Lemma returns_bind (P : B -> Prop) (m : M A) (k : A -> M B) :
  (forall a, returns P (k a)) -> returns P (bind m k).
Proof.
  intros H w b w'. unfold bind.
  destruct (m w) as [[a|e] w1]; [apply H | discriminate].
Qed.

Lemma returns_try_except (P : A -> Prop) (m : M A) (h : exn -> M A) :
  returns P m -> (forall e, returns P (h e)) -> returns P (try_except m h).
Proof.
  intros Hm Hh w a w'. unfold try_except.
  destruct (m w) as [[a1|e] w1] eqn:E.
  - intros [= <- _]. exact (Hm _ _ _ E).
  - apply Hh.
Qed.

(** A [try] whose handler always returns, returns. *)
Lemma try_except_returns (P : A -> Prop) (m : M A) (h : exn -> M A) :
  returns P m ->
  (forall e w, exists a w', h e w = (Return a, w') /\ P a) ->
  forall w, exists a w', try_except m h w = (Return a, w') /\ P a.
Proof.
  intros Hm Hh w. unfold try_except.
  destruct (m w) as [[a1|e] w1] eqn:E.
  - exists a1, w1. split; [reflexivity | exact (Hm _ _ _ E)].
  - apply Hh.
Qed.

End Returns.

(* ================================================================== *)
(** ** Properties of the prompt interceptor *)
(* ================================================================== *)

Lemma string_app_assoc (a b c : string) : (a ++ b) ++ c = a ++ b ++ c.
Proof. induction a as [|x a IH]; simpl; [reflexivity | now rewrite IH]. Qed.

Lemma nonempty_true (s : string) : s <> "" -> nonempty s = true.
Proof. destruct s; [congruence | reflexivity]. Qed.

Lemma split_without_separator (c : ascii) (s : string) :
  contains c s = false -> split c s = [s].
Proof.
  induction s as [|a s IH]; simpl; [reflexivity|].
  destruct (Ascii.eqb a c); [discriminate|].
  intros H. now rewrite (IH H).
Qed.

(** Without a parenthesis the index [[1]] is out of range. *)
Lemma sender_name_of_without_parenthesis (reason : string) :
  contains "(" reason = false -> sender_name_of reason = Raise index_error.
Proof.
  intros H. unfold sender_name_of. now rewrite (split_without_separator _ _ H).
Qed.

Lemma find_sender_In (name : string) (items : dict UserInfoData) (uid : string) :
  find_sender name items = Some uid ->
  exists data, In (uid, data) items /\ display_name data = name.
Proof.
  induction items as [|[k d] items IH]; simpl; [discriminate|].
  destruct (String.eqb_spec (display_name d) name) as [E|_].
  - intros [= ->]. exists d. split; [now left | exact E].
  - intros H. destruct (IH H) as [data [I E]]. exists data. split; [now right | exact E].
Qed.

Lemma find_sender_app (name : string) (l1 l2 : dict UserInfoData) :
  (forall k d, In (k, d) l1 -> display_name d <> name) ->
  find_sender name (l1 ++ l2)%list = find_sender name l2.
Proof.
  induction l1 as [|[k d] l1 IH]; simpl; intros H; [reflexivity|].
  destruct (String.eqb_spec (display_name d) name) as [E|_].
  - exfalso. apply (H k d); [now left | exact E].
  - apply IH. intros k' d' I. apply (H k' d'). now right.
Qed.

Lemma dict_set_In {V} (d : dict V) (k0 : string) (v0 : V) (k : string) (v : V) :
  In (k, v) (dict_set k0 v0 d) -> (k = k0 /\ v = v0) \/ In (k, v) d.
Proof.
  induction d as [|[k' v'] d IH]; simpl.
  - intros [[= <- <-]|[]]. now left.
  - destruct (String.eqb_spec k' k0) as [->|_]; simpl.
    + intros [[= <- <-]|I]; [now left | right; now right].
    + intros [E|I]; [right; now left|].
      destruct (IH I) as [H|H]; [now left | right; now right].
Qed.

Section InterceptorFacts.

Variable env : Env.

(** Every item of the result of the loop of [get_all_user_info] is the record
    of an entry that is not expired. *)
Lemma get_all_fold_items (t : Q) (cache : dict UserInfoCache) acc k data :
  In (k, data) (fst (fold_left (get_all_step t) cache acc)) ->
  In (k, data) (fst acc) \/
  exists e, In (k, e) cache /\ (t - entry_timestamp e <= 600)%Q
            /\ data = user_data e.
Proof.
  revert acc. induction cache as [|[k0 e0] cache IH]; intros [r x]; simpl.
  - auto.
  - intros H. apply IH in H as [H|[e [I L]]].
    + destruct (Qle_bool (t - entry_timestamp e0) 600) eqn:E; simpl in H.
      * apply dict_set_In in H as [[-> ->]|H]; [|now left].
        right. exists e0. split; [now left|]. split; [|reflexivity].
        now apply Qle_bool_iff.
      * now left.
    + right. exists e. split; [now right | exact L].
Qed.

(** The result of the loop is a dictionary. *)
Lemma get_all_fold_wf (t : Q) (cache : dict UserInfoCache) acc :
  dict_wf (fst acc) -> dict_wf (fst (fold_left (get_all_step t) cache acc)).
Proof.
  revert acc. induction cache as [|[k0 e0] cache IH]; intros [r x]; simpl.
  - auto.
  - intros H. apply IH.
    destruct (Qle_bool (t - entry_timestamp e0) 600); simpl; [|exact H].
    now apply dict_set_wf.
Qed.

(** On a dictionary, the loop returns the entries that are not expired, in
    cache order. *)
Lemma get_all_fold_fresh (t : Q) (cache : dict UserInfoCache) acc :
  NoDup (map fst (fst acc) ++ map fst cache) ->
  fst (fold_left (get_all_step t) cache acc)
  = (fst acc ++ fresh_items t cache)%list.
Proof.
  revert acc. unfold fresh_items.
  induction cache as [|[k0 e0] cache IH]; intros [r x]; simpl.
  - intros _. now rewrite app_nil_r.
  - intros Hnd.
    assert (Hk0 : ~ In k0 (map fst r)).
    { intros I. apply NoDup_remove_2 in Hnd. apply Hnd.
      apply in_or_app. now left. }
    destruct (Qle_bool (t - entry_timestamp e0) 600); simpl.
    + rewrite IH; simpl.
      * rewrite (dict_set_fresh _ _ _ Hk0). now rewrite <- app_assoc.
      * rewrite (dict_set_fresh _ _ _ Hk0), map_app. simpl.
        now rewrite <- app_assoc.
    + rewrite IH; simpl; [reflexivity|].
      now apply NoDup_remove_1 in Hnd.
Qed.

Lemma try_enhance_run
    (header : string -> string -> string -> string -> string)
    (header_failed : string -> string -> string)
    (reason base_prompt : string) (w : World) :
  exists r w',
    try_except (enhance env header header_failed reason base_prompt)
      (fun _ => ret None) w = (Return r, w').
Proof.
  unfold try_except.
  destruct (enhance env header header_failed reason base_prompt w)
    as [[r|e] w'].
  - now exists r, w'.
  - now exists None, w'.
Qed.

(** Whatever [enhance] returns ends in the base prompt. *)
Lemma enhance_returns_suffix
    (header : string -> string -> string -> string -> string)
    (header_failed : string -> string -> string)
    (reason base_prompt : string) :
  returns (fun r => forall p, r = Some p ->
                    exists prefix, p = prefix ++ base_prompt)
    (enhance env header header_failed reason base_prompt).
Proof.
  unfold enhance. apply returns_bind. intros cache.
  apply returns_bind. intros [uid|]; [|apply returns_ret; discriminate].
  destruct (nonempty uid && dict_mem uid cache);
    [|apply returns_ret; discriminate].
  apply returns_bind. intros data. apply returns_bind. intros current_time.
  destruct (Qlt_bool (current_time - timestamp data) 600);
    [|apply returns_ret; discriminate].
  destruct (success data).
  - apply returns_bind. intros impression. apply returns_bind. intros attitude.
    apply returns_ret. intros p E. injection E as <-.
    exists (header (display_name data) (user_id data)
              (str (repr_other env) impression) (str (repr_other env) attitude)
            ++ impression_prompt).
    apply eq_sym, string_app_assoc.
  - apply returns_ret. intros p [= <-]. now eexists.
Qed.

(** [finish] hands back the token list it was given and a prompt that ends
    in the base prompt it was given. *)
Lemma finish_only_prepends
    (header : string -> string -> string -> string -> string)
    (header_failed : string -> string -> string)
    (reason base_prompt : string) (token_list : list Z) (w : World) :
  exists prefix w',
    finish env header header_failed reason (base_prompt, token_list) w
    = (Return (prefix ++ base_prompt, token_list), w').
Proof.
  unfold finish. destruct (nonempty base_prompt).
  - simpl. unfold bind.
    assert (Hr : returns (fun r => forall p, r = Some p ->
                                   exists prefix, p = prefix ++ base_prompt)
                   (try_except
                      (enhance env header header_failed reason base_prompt)
                      (fun _ => ret None))).
    { apply returns_try_except; [apply enhance_returns_suffix|].
      intros e. apply returns_ret. discriminate. }
    destruct (try_enhance_run header header_failed reason base_prompt w)
      as [r [w' E]].
    rewrite E. specialize (Hr _ _ _ E). destruct r as [p|].
    + destruct (Hr p eq_refl) as [prefix ->]. now exists prefix, w'.
    + now exists "", w'.
  - simpl. now exists "", w.
Qed.

(** With no parenthesis in [reply_reason] the [try] block yields nothing. *)
Lemma try_enhance_without_parenthesis
    (header : string -> string -> string -> string -> string)
    (header_failed : string -> string -> string)
    (reason base_prompt : string) (w : World) :
  contains "(" reason = false ->
  exists w',
    try_except (enhance env header header_failed reason base_prompt)
      (fun _ => ret None) w = (Return None, w').
Proof.
  intros Hno. unfold try_except, enhance, bind.
  rewrite get_all_user_info_run. rewrite Hno, orb_false_r.
  destruct (contains double_quote reason).
  - rewrite (sender_name_of_without_parenthesis _ Hno). simpl. now eexists.
  - simpl. now eexists.
Qed.

Lemma finish_without_parenthesis
    (header : string -> string -> string -> string -> string)
    (header_failed : string -> string -> string)
    (reason base_prompt : string) (token_list : list Z) (w : World) :
  contains "(" reason = false ->
  exists w',
    finish env header header_failed reason (base_prompt, token_list) w
    = (Return (base_prompt, token_list), w').
Proof.
  intros Hno. unfold finish. destruct (nonempty base_prompt); simpl.
  - unfold bind.
    destruct (try_enhance_without_parenthesis header header_failed reason
                base_prompt w Hno) as [w' ->].
    now exists w'.
  - now exists w.
Qed.

(** Resolving the default of [reply_time_point] touches the clock only. *)
Lemma default_time_point_original (args : BuildArgs) (w w0 : World) (t : Q) :
  default_time_point env args w = (Return t, w0) ->
  _original_build_prompt_reply_context_group w0
  = _original_build_prompt_reply_context_group w.
Proof.
  unfold default_time_point, time_time, ret.
  destruct (reply_time_point args); intros [= _ <-]; reflexivity.
Qed.

(** The group wrapper, once the saved original has returned. *)
Lemma patched_method_run (invoke : Method -> Builder) (args : BuildArgs)
    (w w0 w1 : World) (m : Method) (t : Q) (base_result : string * list Z) :
  _original_build_prompt_reply_context_group w = Some m ->
  default_time_point env args w = (Return t, w0) ->
  invoke m (with_time_point (Some t) args) w0 = (Return base_result, w1) ->
  patched_method env invoke args w
  = finish env user_prompt_group user_prompt_group_failed (reply_reason args)
      base_result w1.
Proof.
  intros Ho Ht Hi. unfold patched_method, bind at 1. rewrite Ht.
  unfold bind at 1, gets.
  rewrite (default_time_point_original _ _ _ _ Ht), Ho.
  unfold bind. now rewrite Hi.
Qed.

(** The private wrapper, once the saved original has returned. *)
Lemma patched_method_pri_run (invoke : Method -> Builder) (args : BuildArgs)
    (w w1 : World) (m : Method) (base_result : string * list Z) :
  _original_build_prompt_reply_context_pri w = Some m ->
  invoke m (with_time_point None args) w = (Return base_result, w1) ->
  patched_method_pri env invoke args w
  = finish env user_prompt_pri user_prompt_pri_failed (reply_reason args)
      base_result w1.
Proof.
  intros Ho Hi. unfold patched_method_pri, bind, gets. now rewrite Ho, Hi.
Qed.

(** C6. When the saved original returns a base prompt (empty or not) and
    [reply_reason] contains no opening parenthesis, either wrapper returns
    that base prompt and the original's token list unchanged; a quote
    character in [reply_reason] makes no difference. *)
Theorem no_parenthesis_returns_base_prompt
    (invoke : Method -> Builder) (args : BuildArgs) (w w0 w1 : World)
    (m : Method) (t : Q) (base_prompt : string) (token_list : list Z) :
  contains "(" (reply_reason args) = false ->
  (_original_build_prompt_reply_context_group w = Some m ->
   default_time_point env args w = (Return t, w0) ->
   invoke m (with_time_point (Some t) args) w0
   = (Return (base_prompt, token_list), w1) ->
   exists w2,
     patched_method env invoke args w = (Return (base_prompt, token_list), w2))
  /\
  (_original_build_prompt_reply_context_pri w = Some m ->
   invoke m (with_time_point None args) w
   = (Return (base_prompt, token_list), w1) ->
   exists w2,
     patched_method_pri env invoke args w
     = (Return (base_prompt, token_list), w2)).
Proof.
  intros Hno. split.
  - intros Ho Ht Hi. rewrite (patched_method_run _ _ _ _ _ _ _ _ Ho Ht Hi).
    now apply finish_without_parenthesis.
  - intros Ho Hi. rewrite (patched_method_pri_run _ _ _ _ _ _ Ho Hi).
    now apply finish_without_parenthesis.
Qed.

(** C10. Whenever the saved original is set and returns, either wrapper
    returns the original's token list as it is, and a prompt that has the
    original's base prompt as a suffix. *)
Theorem wrappers_only_prepend
    (invoke : Method -> Builder) (args : BuildArgs) (w w0 w1 : World)
    (m : Method) (t : Q) (base_prompt : string) (token_list : list Z) :
  (_original_build_prompt_reply_context_group w = Some m ->
   default_time_point env args w = (Return t, w0) ->
   invoke m (with_time_point (Some t) args) w0
   = (Return (base_prompt, token_list), w1) ->
   exists prefix w2,
     patched_method env invoke args w
     = (Return (prefix ++ base_prompt, token_list), w2))
  /\
  (_original_build_prompt_reply_context_pri w = Some m ->
   invoke m (with_time_point None args) w
   = (Return (base_prompt, token_list), w1) ->
   exists prefix w2,
     patched_method_pri env invoke args w
     = (Return (prefix ++ base_prompt, token_list), w2)).
Proof.
  split.
  - intros Ho Ht Hi. rewrite (patched_method_run _ _ _ _ _ _ _ _ Ho Ht Hi).
    apply finish_only_prepends.
  - intros Ho Hi. rewrite (patched_method_pri_run _ _ _ _ _ _ Ho Hi).
    apply finish_only_prepends.
Qed.

(** When every cached record under the extracted name is beyond its 600
    seconds, by the entry's time stamp at the cache read or by the record's
    own at the freshness test, the [try] block yields nothing. *)
Lemma try_enhance_expired
    (header : string -> string -> string -> string -> string)
    (header_failed : string -> string -> string)
    (reason base_prompt : string) (w : World) :
  (forall name k e,
      sender_name_of reason = Return name ->
      In (k, e) (_global_user_cache w) ->
      display_name (user_data e) = name ->
      (600 < clock env (clock_reads w) - entry_timestamp e)%Q
      \/ (600 <= clock env (S (clock_reads w)) - timestamp (user_data e))%Q) ->
  exists w',
    try_except (enhance env header header_failed reason base_prompt)
      (fun _ => ret None) w = (Return None, w').
Proof.
  intros Hexp. unfold try_except, enhance. unfold bind at 1.
  rewrite get_all_user_info_run.
  set (t1 := clock env (clock_reads w)) in *.
  set (r := fst (fold_left (get_all_step t1) (_global_user_cache w) ([], []))).
  assert (Hwf : dict_wf r) by (apply get_all_fold_wf; constructor).
  assert (Hitems : forall k data, In (k, data) r ->
            exists e, In (k, e) (_global_user_cache w)
                      /\ (t1 - entry_timestamp e <= 600)%Q
                      /\ data = user_data e).
  { intros k data I. apply get_all_fold_items in I as [[]|H]. exact H. }
  unfold bind at 1.
  destruct (contains double_quote reason || contains "(" reason);
    [|simpl; now eexists].
  unfold bind at 1, lift at 1.
  destruct (sender_name_of reason) as [name|e] eqn:Hname; [|now eexists].
  unfold ret at 1.
  destruct (find_sender name r) as [uid|] eqn:Hfind; [|simpl; now eexists].
  destruct (nonempty uid && dict_mem uid r) eqn:Hmem; [|simpl; now eexists].
  apply find_sender_In in Hfind as [data [I Hdn]].
  rewrite (dict_get_wf_In _ _ _ Hwf I).
  destruct (Hitems _ _ I) as [e [Ie [Hfresh ->]]].
  unfold bind at 1, lift at 1. unfold bind at 1, time_time at 1.
  cbn [clock_reads set_cache set_clock_reads].
  destruct (Hexp name uid e eq_refl Ie Hdn) as [Hold|Hold].
  - exfalso. exact (Qlt_not_le _ _ Hold Hfresh).
  - assert (L : Qlt_bool
                  (clock env (S (clock_reads w)) - timestamp (user_data e)) 600
                = false).
    { unfold Qlt_bool. apply negb_false_iff. now apply Qle_bool_iff. }
    rewrite L. simpl. now eexists.
Qed.

Lemma finish_expired
    (header : string -> string -> string -> string -> string)
    (header_failed : string -> string -> string)
    (reason base_prompt : string) (token_list : list Z) (w : World) :
  (forall name k e,
      sender_name_of reason = Return name ->
      In (k, e) (_global_user_cache w) ->
      display_name (user_data e) = name ->
      (600 < clock env (clock_reads w) - entry_timestamp e)%Q
      \/ (600 <= clock env (S (clock_reads w)) - timestamp (user_data e))%Q) ->
  exists w',
    finish env header header_failed reason (base_prompt, token_list) w
    = (Return (base_prompt, token_list), w').
Proof.
  intros Hexp. unfold finish. destruct (nonempty base_prompt); simpl.
  - unfold bind.
    destruct (try_enhance_expired header header_failed reason base_prompt w Hexp)
      as [w' ->].
    now exists w'.
  - now exists w.
Qed.

(** C7. When every cache record whose display name is the name extracted
    from [reply_reason] is older than 600 seconds, either wrapper returns the
    base prompt and the token list of the original unchanged.  The age is that
    of the cache entry when the wrapper reads the cache, or that of the
    record's own time stamp when the wrapper tests it. *)
Theorem expired_record_is_not_used
    (invoke : Method -> Builder) (args : BuildArgs) (w w0 w1 : World)
    (m : Method) (t : Q) (base_prompt : string) (token_list : list Z) :
  (forall name k e,
      sender_name_of (reply_reason args) = Return name ->
      In (k, e) (_global_user_cache w1) ->
      display_name (user_data e) = name ->
      (600 < clock env (clock_reads w1) - entry_timestamp e)%Q
      \/ (600 <= clock env (S (clock_reads w1)) - timestamp (user_data e))%Q) ->
  (_original_build_prompt_reply_context_group w = Some m ->
   default_time_point env args w = (Return t, w0) ->
   invoke m (with_time_point (Some t) args) w0
   = (Return (base_prompt, token_list), w1) ->
   exists w2,
     patched_method env invoke args w = (Return (base_prompt, token_list), w2))
  /\
  (_original_build_prompt_reply_context_pri w = Some m ->
   invoke m (with_time_point None args) w
   = (Return (base_prompt, token_list), w1) ->
   exists w2,
     patched_method_pri env invoke args w
     = (Return (base_prompt, token_list), w2)).
Proof.
  intros Hexp. split.
  - intros Ho Ht Hi. rewrite (patched_method_run _ _ _ _ _ _ _ _ Ho Ht Hi).
    now apply finish_expired.
  - intros Ho Hi. rewrite (patched_method_pri_run _ _ _ _ _ _ Ho Hi).
    now apply finish_expired.
Qed.

Lemma fresh_items_app (t : Q) (c1 c2 : dict UserInfoCache) :
  fresh_items t (c1 ++ c2)%list = (fresh_items t c1 ++ fresh_items t c2)%list.
Proof. unfold fresh_items. now rewrite filter_app, map_app. Qed.

Lemma fresh_items_In (t : Q) (cache : dict UserInfoCache) k data :
  In (k, data) (fresh_items t cache) ->
  exists e, In (k, e) cache /\ (t - entry_timestamp e <= 600)%Q
            /\ data = user_data e.
Proof.
  unfold fresh_items. intros I.
  apply in_map_iff in I as [[k' e] [[= -> <-] I]].
  apply filter_In in I as [I L]. simpl in L.
  exists e. split; [exact I|]. split; [now apply Qle_bool_iff | reflexivity].
Qed.

Lemma fresh_items_wf (t : Q) (cache : dict UserInfoCache) :
  dict_wf cache -> dict_wf (fresh_items t cache).
Proof.
  intros Hwf.
  pose proof (get_all_fold_fresh t cache ([], []) Hwf) as E. simpl in E.
  rewrite <- E. apply get_all_fold_wf. constructor.
Qed.

(** The [try] block when the scan finds a fresh, successfully fetched record
    whose payload is a dictionary. *)
Lemma enhance_with_fresh_record
    (header : string -> string -> string -> string -> string)
    (header_failed : string -> string -> string)
    (reason base_prompt name : string) (w : World)
    (pre post : dict UserInfoCache) (uid : string) (e : UserInfoCache)
    (payload : dict value) :
  contains double_quote reason || contains "(" reason = true ->
  sender_name_of reason = Return name ->
  dict_wf (_global_user_cache w) ->
  _global_user_cache w = (pre ++ (uid, e) :: post)%list ->
  uid <> "" ->
  (forall k e', In (k, e') pre -> display_name (user_data e') = name ->
                (600 < clock env (clock_reads w) - entry_timestamp e')%Q) ->
  display_name (user_data e) = name ->
  success (user_data e) = true ->
  (clock env (clock_reads w) - entry_timestamp e <= 600)%Q ->
  (clock env (S (clock_reads w)) - timestamp (user_data e) < 600)%Q ->
  dict_get "data" (api_data (user_data e)) = Some (VDict payload) ->
  exists w',
    enhance env header header_failed reason base_prompt w
    = (Return
         (Some (header name (user_id (user_data e))
                  (str (repr_other env)
                     (dict_get_default "impression" (VStr "未知") payload))
                  (str (repr_other env)
                     (dict_get_default "attitude" (VStr "未知") payload))
                ++ impression_prompt ++ base_prompt)), w').
Proof.
  intros Hcond Hname Hwf Hcache Hne Hpre Hdn Hok Hentry Hrecord Hdata.
  unfold enhance. unfold bind at 1. rewrite get_all_user_info_run.
  set (t1 := clock env (clock_reads w)) in *.
  rewrite (get_all_fold_fresh t1 (_global_user_cache w) ([], [])) by exact Hwf.
  cbn [fst app].
  assert (Hitems : fresh_items t1 (_global_user_cache w)
                   = (fresh_items t1 pre
                      ++ (uid, user_data e) :: fresh_items t1 post)%list).
  { rewrite Hcache, fresh_items_app. f_equal. unfold fresh_items. simpl.
    apply Qle_bool_iff in Hentry. now rewrite Hentry. }
  assert (Hfind : find_sender name (fresh_items t1 (_global_user_cache w))
                  = Some uid).
  { rewrite Hitems, find_sender_app.
    - simpl. rewrite Hdn. now rewrite String.eqb_refl.
    - intros k d I E. apply fresh_items_In in I as [e' [I [L ->]]].
      apply (Qlt_not_le _ _ (Hpre k e' I E) L). }
  assert (Hget : dict_get uid (fresh_items t1 (_global_user_cache w))
                 = Some (user_data e)).
  { apply dict_get_wf_In; [now apply fresh_items_wf|].
    rewrite Hitems. apply in_or_app. right. now left. }
  unfold bind at 1. rewrite Hcond.
  unfold bind at 1, lift at 1. rewrite Hname. unfold ret at 1. rewrite Hfind.
  unfold dict_mem. rewrite Hget, (nonempty_true _ Hne).
  cbn [andb]. unfold bind at 1, lift at 1. unfold bind at 1, time_time at 1.
  cbn [clock_reads set_cache set_clock_reads].
  apply Qlt_bool_iff in Hrecord. rewrite Hrecord, Hok.
  assert (Hp : dict_get_default "data" (VDict []) (api_data (user_data e))
               = VDict payload)
    by (unfold dict_get_default; now rewrite Hdata).
  rewrite Hp. unfold bind, lift, value_get, ret. rewrite Hdn. now eexists.
Qed.

(** C1. The group wrapper, for [reply_reason = 'told Alice (Alice) hi'], a
    non-empty base prompt from the saved original, and a cache (a dictionary)
    that holds under a non-empty key a record with display name "Alice",
    [success = True], an entry aged at most 600 seconds and a record aged under
    600 seconds, whose [api_data["data"]] maps "impression" to 30 and
    "attitude" to "friendly", that record being the first unexpired one named
    "Alice" in cache order: the wrapper returns the group header for "Alice",
    her user id, 30 and "friendly", then the tier block, then the base prompt,
    with the original's token list; and the tier block contains the line for
    scores from 25 to 50. *)
Theorem alice_prompt_is_enhanced
    (invoke : Method -> Builder) (args : BuildArgs) (w w0 w1 : World)
    (m : Method) (t : Q) (base_prompt : string) (token_list : list Z)
    (pre post : dict UserInfoCache) (uid : string) (e : UserInfoCache)
    (payload : dict value) :
  reply_reason args = "told Alice (Alice) hi" ->
  _original_build_prompt_reply_context_group w = Some m ->
  default_time_point env args w = (Return t, w0) ->
  invoke m (with_time_point (Some t) args) w0
  = (Return (base_prompt, token_list), w1) ->
  base_prompt <> "" ->
  dict_wf (_global_user_cache w1) ->
  _global_user_cache w1 = (pre ++ (uid, e) :: post)%list ->
  uid <> "" ->
  (forall k e', In (k, e') pre -> display_name (user_data e') = "Alice" ->
                (600 < clock env (clock_reads w1) - entry_timestamp e')%Q) ->
  display_name (user_data e) = "Alice" ->
  success (user_data e) = true ->
  (clock env (clock_reads w1) - entry_timestamp e <= 600)%Q ->
  (clock env (S (clock_reads w1)) - timestamp (user_data e) < 600)%Q ->
  dict_get "data" (api_data (user_data e)) = Some (VDict payload) ->
  dict_get "impression" payload = Some (VInt 30) ->
  dict_get "attitude" payload = Some (VStr "friendly") ->
  (exists w2,
      patched_method env invoke args w
      = (Return (user_prompt_group "Alice" (user_id (user_data e)) "30" "friendly"
                 ++ impression_prompt ++ base_prompt, token_list), w2))
  /\ impression_prompt = tiers_before_25_50 ++ tier_25_50 ++ tiers_after_25_50.
Proof.
  intros Hreason Ho Ht Hi Hbp Hwf Hcache Hne Hpre Hdn Hok Hentry Hrecord
    Hdata Himp Hatt.
  split; [|reflexivity].
  rewrite (patched_method_run _ _ _ _ _ _ _ _ Ho Ht Hi), Hreason.
  unfold finish. rewrite (nonempty_true _ Hbp). cbn [negb].
  unfold bind at 1, try_except.
  destruct (enhance_with_fresh_record user_prompt_group user_prompt_group_failed
              "told Alice (Alice) hi" base_prompt "Alice" w1 pre post uid e
              payload eq_refl eq_refl Hwf Hcache Hne Hpre Hdn Hok Hentry
              Hrecord Hdata) as [w2 ->].
  unfold dict_get_default. rewrite Himp, Hatt.
  exists w2. reflexivity.
Qed.

End InterceptorFacts.

(* ================================================================== *)
(** ** Properties of the fetch client *)
(* ================================================================== *)

Section FetchFacts.

Variable env : Env.

(** A disabled client answers at once. *)
Lemma fetch_user_info_disabled (self : ApiService) (uid : string) (w : World) :
  truthy (enable_api self) = false ->
  fetch_user_info env self uid w
  = (Return (_create_error_response "API服务已禁用" 0), w).
Proof. intros Hoff. unfold fetch_user_info. now rewrite Hoff. Qed.

(** C4. On a client whose [enable_api] is false, [fetch_user_info] returns
    the error record with [success = False], [data = None], [status_code = 0]
    and a non-empty [error], and leaves the world as it was: no session is
    created and nothing is sent. *)
Theorem disabled_client_returns_error_without_network
    (self : ApiService) (uid : string) (w : World) :
  truthy (enable_api self) = false ->
  exists r error,
    fetch_user_info env self uid w = (Return r, w)
    /\ r = [ ("success", VBool false); ("data", VNone);
             ("status_code", VInt 0); ("error", VStr error) ]
    /\ error <> "".
Proof.
  intros Hoff. rewrite (fetch_user_info_disabled self uid w Hoff).
  do 2 eexists. split; [reflexivity|]. split; [reflexivity|]. discriminate.
Qed.

(** The URL [fetch_user_info] posts to. *)
Lemma fetch_user_info_enabled (self : ApiService) (uid : string) (w : World)
    (b : string) :
  truthy (enable_api self) = true ->
  base_url self = VStr b ->
  let url := rstrip_char "/" b ++ "/get_info/" ++ uid in
  exists w',
    fetch_user_info env self uid w
    = (Return
         (match http_post env url (timeout self) with
          | Return (status, json) =>
              if Z.eqb status 200
              then match json with
                   | Return data => _create_success_response data status
                   | Raise e =>
                       if is_timeout e
                       then _create_error_response "API请求超时" 0
                       else _create_error_response ("请求错误: " ++ exn_msg e) 0
                   end
              else _create_error_response
                     ("API返回状态码: " ++ str_of_int status) status
          | Raise e =>
              if is_timeout e
              then _create_error_response "API请求超时" 0
              else _create_error_response ("请求错误: " ++ exn_msg e) 0
          end), w').
Proof.
  intros Hon Hurl url. unfold fetch_user_info. rewrite Hon, Hurl. cbn [negb].
  unfold rstrip_slash. unfold bind at 1, lift at 1. fold url.
  unfold bind at 1.
  destruct (get_session self w) as [[session|e] w1] eqn:Hs.
  - unfold try_except, bind at 1, modify at 1. unfold bind at 1, lift at 1.
    destruct (http_post env url (timeout self)) as [[status json]|e].
    + destruct (Z.eqb status 200).
      * unfold bind, lift, ret. destruct json as [data|e].
        -- now eexists.
        -- destruct (is_timeout e); now eexists.
      * now eexists.
    + destruct (is_timeout e); now eexists.
  - exfalso. unfold get_session in Hs.
    destruct (_session self); discriminate.
Qed.

(** C5. On a client whose [base_url] is a string, [fetch_user_info] returns
    for every user id and every outcome of the request: it does not raise.
    The result has the four fields [success], [data], [status_code] and
    [error]; [success] is true only when the client is enabled, the response
    has status 200 and its body parses, and false in every other case. *)
Theorem fetch_user_info_never_raises
    (self : ApiService) (uid : string) (w : World) (b : string) :
  base_url self = VStr b ->
  exists r w',
    fetch_user_info env self uid w = (Return r, w')
    /\ map fst r = ["success"; "data"; "status_code"; "error"]
    /\ (dict_get "success" r = Some (VBool true)
        \/ dict_get "success" r = Some (VBool false))
    /\ (dict_get "success" r = Some (VBool true) ->
        truthy (enable_api self) = true
        /\ exists data,
             http_post env (rstrip_char "/" b ++ "/get_info/" ++ uid)
               (timeout self) = Return (200%Z, Return data)
             /\ dict_get "data" r = Some data).
Proof.
  intros Hurl. destruct (truthy (enable_api self)) eqn:Hon.
  - destruct (fetch_user_info_enabled self uid w b Hon Hurl) as [w' ->].
    eexists. exists w'. split; [reflexivity|].
    destruct (http_post env _ (timeout self)) as [[status json]|e].
    + destruct (Z.eqb_spec status 200) as [->|Hne].
      * destruct json as [data|e].
        -- repeat split; [now left | now exists data].
        -- destruct (is_timeout e); repeat split; try (now right); discriminate.
      * repeat split; try (now right); discriminate.
    + destruct (is_timeout e); repeat split; try (now right); discriminate.
  - rewrite (fetch_user_info_disabled self uid w Hon).
    eexists. exists w. split; [reflexivity|].
    repeat split; try (now right); discriminate.
Qed.

End FetchFacts.

(* ================================================================== *)
(** ** Properties of the message-time collector *)
(* ================================================================== *)

Section CollectorFacts.

Variable env : Env.

Ltac returns_step :=
  first
    [ apply returns_ret; split; reflexivity
    | apply returns_raise
    | apply returns_bind; intro
    | match goal with
      | |- returns _ (if ?b then _ else _) => destruct b
      | |- returns _ (match ?x with Some _ => _ | None => _ end) => destruct x
      end ].

(** C3. [execute] returns for every message and in every state, whatever the
    host's configuration lookup, the cache, the clock and the HTTP request do,
    and also when any step raises an exception; the first two components of
    its result are [True]. *)
Theorem execute_always_passes (message : MaiMessages) (w : World) :
  exists r w',
    execute env message w = (Return r, w')
    /\ did_not_error r = true
    /\ allow_further_processing r = true.
Proof.
  unfold execute.
  apply (try_except_returns passes).
  - cbv zeta. repeat returns_step.
  - intros e w0. do 2 eexists. split; [reflexivity|]. split; reflexivity.
Qed.

End CollectorFacts.

(* ================================================================== *)
(** ** Properties of the plugin life cycle *)
(* ================================================================== *)

Section LifeCycleFacts.

Variable env : Env.

Lemma remove_user_info_patch_run (w : World) (g : Method) :
  _patch_applied w = true ->
  _original_build_prompt_reply_context_group w = Some g ->
  replyers_importable w = true ->
  remove_user_info_patch w
  = (Return true,
     set_patch_applied false
       (set_PrivateReplyer (_original_build_prompt_reply_context_pri w)
          (set_DefaultReplyer (Some g) w))).
Proof.
  intros Ha Hg Hi.
  unfold remove_user_info_patch, try_except, bind, gets, import_replyers,
    modify, ret.
  simpl. rewrite Ha, Hg. simpl. unfold bind, gets. rewrite Hi. reflexivity.
Qed.

(** C8. From a state in which the patch is applied (the flag is set, both
    originals are saved, and the host's replyer modules import as they did
    when the patch was applied), [on_plugin_unload] puts the saved references
    back into both class attributes, so that calling either attribute is
    calling the saved original, clears the flag and empties the cache. *)
Theorem unload_restores_originals (w : World) (g p : Method) :
  _patch_applied w = true ->
  _original_build_prompt_reply_context_group w = Some g ->
  _original_build_prompt_reply_context_pri w = Some p ->
  replyers_importable w = true ->
  exists w',
    on_plugin_unload w = (Return tt, w')
    /\ DefaultReplyer_build_prompt_reply_context w' = Some g
    /\ PrivateReplyer_build_prompt_reply_context w' = Some p
    /\ _patch_applied w' = false
    /\ _global_user_cache w' = []
    /\ (forall depth args world,
           call_attribute env depth
             (DefaultReplyer_build_prompt_reply_context w') args world
           = call_method env depth g args world)
    /\ (forall depth args world,
           call_attribute env depth
             (PrivateReplyer_build_prompt_reply_context w') args world
           = call_method env depth p args world).
Proof.
  intros Ha Hg Hp Hi.
  unfold on_plugin_unload, try_except, bind.
  rewrite (remove_user_info_patch_run w g Ha Hg Hi), Hp.
  eexists. split; [reflexivity|]. simpl. repeat split; reflexivity.
Qed.

End LifeCycleFacts.

(* ================================================================== *)
(** ** The properties at work on the concrete scenarios *)
(* ================================================================== *)

Module Worked.

Import Scenario.

Lemma wf_two (a b : string) (x y : UserInfoCache) :
  a <> b -> dict_wf [(a, x); (b, y)].
Proof.
  intros Hne. unfold dict_wf. simpl. constructor.
  - intros [E|[]]. now apply Hne.
  - constructor; [intros [] | constructor].
Defined.

(** Two users are called "Alice"; the one stored first has impression 5.  The
    record of the second one meets every condition of C1, and the group
    wrapper builds its header from the first one.  And a record that meets
    every condition but is stored under the empty string is not used at all:
    the wrapper returns the base prompt. *)
Lemma first_alice_wins :
  (let w := patched_with [other_alice; alice] in
   let data := user_data (snd alice) in
   In alice (_global_user_cache w)
   /\ display_name data = "Alice"
   /\ success data = true
   /\ (clock_from 0 2 - entry_timestamp (snd alice) < 600)%Q
   /\ (clock_from 0 2 - timestamp data < 600)%Q
   /\ api_data data
      = _create_success_response
          (VDict [ ("impression", VInt 30); ("attitude", VStr "friendly") ]) 200
   /\ fst (patched_method (env 0) (call_method (env 0) 1000)
             (args_of alice_reason None) w)
      = Return (user_prompt_group "Alice" "10000" "5" "wary"
                ++ impression_prompt ++ "BASE", [1; 2; 3]%Z)
   /\ user_prompt_group "Alice" "10000" "5" "wary" ++ impression_prompt ++ "BASE"
      <> user_prompt_group "Alice" "10001" "30" "friendly"
         ++ impression_prompt ++ "BASE")
  /\
  (let w := patched_with [unkeyed_alice] in
   let data := user_data (snd unkeyed_alice) in
   In unkeyed_alice (_global_user_cache w)
   /\ display_name data = "Alice"
   /\ success data = true
   /\ (clock_from 0 2 - entry_timestamp (snd unkeyed_alice) < 600)%Q
   /\ (clock_from 0 2 - timestamp data < 600)%Q
   /\ api_data data
      = _create_success_response
          (VDict [ ("impression", VInt 30); ("attitude", VStr "friendly") ]) 200
   /\ fst (patched_method (env 0) (call_method (env 0) 1000)
             (args_of alice_reason None) w)
      = Return ("BASE", [1; 2; 3]%Z)).
Proof.
  cbv zeta. split.
  - repeat split; try reflexivity.
    + right. now left.
    + intros E. apply (f_equal (fun s => String.get 63 s)) in E.
      vm_compute in E. discriminate E.
  - repeat split; try reflexivity. now left.
Qed.

(** The collector and the interceptor together: a first message of Alice is
    answered from the endpoint and cached, a second one from the cache, and
    the patched group builder then prepends her header and the tier block. *)
Example collector_then_interceptor :
  let w0 := snd (apply_user_info_patch initial) in
  let w1 := snd (execute (env 0) message_from_alice w0) in
  fst (execute (env 0) message_from_alice w0)
  = Return (true, true, "用户信息获取完成: 成功", None, None)
  /\ events w1 = [EvSessionCreated; EvPost "http://10.255.255.254/get_info/10001"]
  /\ fst (execute (env 0) message_from_alice w1)
     = Return (true, true, "用户信息获取完成（缓存）", None, None)
  /\ fst (call_attribute (env 0) 1000
            (DefaultReplyer_build_prompt_reply_context w1)
            (args_of alice_reason None) w1)
     = Return (user_prompt_group "Alice" "10001" "30" "friendly"
               ++ impression_prompt ++ "BASE", [1; 2; 3]%Z).
Proof. cbv zeta. repeat split; vm_compute; reflexivity. Qed.

(** When the configuration lookup raises, [execute] still answers
    [True, True] and reports the error in its message. *)
Example execute_survives_a_raise :
  fst (execute broken_env message_from_alice initial)
  = Return (true, true, "用户信息获取过程中发生错误: no configuration", None, None).
Proof. reflexivity. Qed.

(** C1 at work: Bob is stored before Alice. *)
Lemma alice_prompt_is_enhanced_witness :
  exists w2,
    patched_method (env 0) (call_method (env 0) 1000)
      (args_of alice_reason None) (patched_with [bob; alice])
    = (Return (user_prompt_group "Alice" "10001" "30" "friendly"
               ++ impression_prompt ++ "BASE", [1; 2; 3]%Z), w2).
Proof.
  pose (w := patched_with [bob; alice]).
  pose (w1 := set_clock_reads 1 w).
  apply (alice_prompt_is_enhanced (env 0) (call_method (env 0) 1000)
           (args_of alice_reason None) w w1 w1 (HostMethod 0) (clock_from 0 0)
           "BASE" [1; 2; 3]%Z [bob] [] "10001" (snd alice)
           [ ("impression", VInt 30); ("attitude", VStr "friendly") ]);
    try reflexivity; try discriminate.
  - apply wf_two. discriminate.
  - intros k e' [E|[]] Hname. injection E as <- <-. discriminate Hname.
Defined.

(** C2 at work: Alice's entry is 1000 seconds old. *)
Lemma expired_entry_is_never_returned_witness :
  (exists w',
      get_user_info (env 1000) "10001" (patched_with [bob; alice])
      = (Return None, w')
      /\ dict_get "10001" (_global_user_cache w') = None)
  /\
  (exists result w',
      get_all_user_info (env 1000) (patched_with [bob; alice])
      = (Return result, w')
      /\ dict_get "10001" result = None
      /\ dict_get "10001" (_global_user_cache w') = None).
Proof.
  apply (expired_entry_is_never_returned (env 1000) (patched_with [bob; alice])
           "10001").
  intros e [E|[E|[]]].
  - discriminate E.
  - injection E as <-. reflexivity.
Defined.

(** C4 at work. *)
Lemma disabled_client_returns_error_without_network_witness :
  exists r error,
    fetch_user_info (env 0) (client false) "10001" initial = (Return r, initial)
    /\ r = [ ("success", VBool false); ("data", VNone);
             ("status_code", VInt 0); ("error", VStr error) ]
    /\ error <> "".
Proof.
  apply (disabled_client_returns_error_without_network (env 0) (client false)
           "10001" initial).
  reflexivity.
Defined.

(** C5 at work. *)
Lemma fetch_user_info_never_raises_witness :
  exists r w',
    fetch_user_info (env 0) (client true) "10001" initial = (Return r, w')
    /\ map fst r = ["success"; "data"; "status_code"; "error"]
    /\ (dict_get "success" r = Some (VBool true)
        \/ dict_get "success" r = Some (VBool false))
    /\ (dict_get "success" r = Some (VBool true) ->
        truthy (enable_api (client true)) = true
        /\ exists data,
             http_post (env 0)
               (rstrip_char "/" "http://10.255.255.254" ++ "/get_info/" ++ "10001")
               (timeout (client true)) = Return (200%Z, Return data)
             /\ dict_get "data" r = Some data).
Proof.
  apply (fetch_user_info_never_raises (env 0) (client true) "10001" initial
           "http://10.255.255.254").
  reflexivity.
Defined.

(** C6 at work, for both wrappers. *)
Lemma no_parenthesis_returns_base_prompt_witness :
  (exists w2,
      patched_method (env 0) (call_method (env 0) 1000)
        (args_of quoted_reason (Some 0%Q)) (patched_with [bob; alice])
      = (Return ("BASE", [1; 2; 3]%Z), w2))
  /\
  (exists w2,
      patched_method_pri (env 0) (call_method (env 0) 1000)
        (args_of quoted_reason (Some 0%Q)) (patched_with [bob; alice])
      = (Return ("BASE", [1; 2; 3]%Z), w2)).
Proof.
  pose (w := patched_with [bob; alice]).
  split.
  - apply (proj1 (no_parenthesis_returns_base_prompt (env 0)
                    (call_method (env 0) 1000) (args_of quoted_reason (Some 0%Q))
                    w w w (HostMethod 0) 0%Q "BASE" [1; 2; 3]%Z eq_refl));
      reflexivity.
  - apply (proj2 (no_parenthesis_returns_base_prompt (env 0)
                    (call_method (env 0) 1000) (args_of quoted_reason (Some 0%Q))
                    w w w (HostMethod 1) 0%Q "BASE" [1; 2; 3]%Z eq_refl));
      reflexivity.
Defined.

Lemma only_alice_is_old :
  let w := patched_with [bob; alice] in
  forall name k e,
    sender_name_of alice_reason = Return name ->
    In (k, e) (_global_user_cache w) ->
    display_name (user_data e) = name ->
    (600 < clock_from 1000 (clock_reads w) - entry_timestamp e)%Q
    \/ (600 <= clock_from 1000 (S (clock_reads w)) - timestamp (user_data e))%Q.
Proof.
  intros w name k e Hname I Hdn.
  injection Hname as <-. destruct I as [E|[E|[]]].
  - injection E as _ <-. discriminate Hdn.
  - injection E as _ <-. right. discriminate.
Defined.

(** C7 at work, for both wrappers: Alice's record is 1000 seconds old. *)
Lemma expired_record_is_not_used_witness :
  (exists w2,
      patched_method (env 1000) (call_method (env 1000) 1000)
        (args_of alice_reason (Some 0%Q)) (patched_with [bob; alice])
      = (Return ("BASE", [1; 2; 3]%Z), w2))
  /\
  (exists w2,
      patched_method_pri (env 1000) (call_method (env 1000) 1000)
        (args_of alice_reason (Some 0%Q)) (patched_with [bob; alice])
      = (Return ("BASE", [1; 2; 3]%Z), w2)).
Proof.
  pose (w := patched_with [bob; alice]).
  split.
  - apply (proj1 (expired_record_is_not_used (env 1000)
                    (call_method (env 1000) 1000)
                    (args_of alice_reason (Some 0%Q))
                    w w w (HostMethod 0) 0%Q "BASE" [1; 2; 3]%Z
                    only_alice_is_old));
      reflexivity.
  - apply (proj2 (expired_record_is_not_used (env 1000)
                    (call_method (env 1000) 1000)
                    (args_of alice_reason (Some 0%Q))
                    w w w (HostMethod 1) 0%Q "BASE" [1; 2; 3]%Z
                    only_alice_is_old));
      reflexivity.
Defined.

(** C8 at work: the patch is applied to the initial process, a record is
    cached, then the plugin is unloaded. *)
Lemma unload_restores_originals_witness :
  let w := set_cache [alice] (snd (apply_user_info_patch initial)) in
  exists w',
    on_plugin_unload w = (Return tt, w')
    /\ DefaultReplyer_build_prompt_reply_context w' = Some (HostMethod 0)
    /\ PrivateReplyer_build_prompt_reply_context w' = Some (HostMethod 1)
    /\ _patch_applied w' = false
    /\ _global_user_cache w' = []
    /\ (forall depth args world,
           call_attribute (env 0) depth
             (DefaultReplyer_build_prompt_reply_context w') args world
           = call_method (env 0) depth (HostMethod 0) args world)
    /\ (forall depth args world,
           call_attribute (env 0) depth
             (PrivateReplyer_build_prompt_reply_context w') args world
           = call_method (env 0) depth (HostMethod 1) args world).
Proof.
  cbv zeta.
  apply (unload_restores_originals (env 0)
           (set_cache [alice] (snd (apply_user_info_patch initial)))
           (HostMethod 0) (HostMethod 1));
    reflexivity.
Defined.

(** C9 at work. *)
Lemma store_then_get_returns_record_witness :
  exists w1 w2,
    store_user_info (env 0) "10001" (user_data (snd alice)) (patched_with [bob])
    = (Return tt, w1)
    /\ get_user_info (env 0) "10001" w1
       = (Return (Some (user_data (snd alice))), w2)
    /\ dict_get "10001" (_global_user_cache w1)
       = Some (mkUserInfoCache (user_data (snd alice)) (clock_from 0 0)).
Proof.
  apply (store_then_get_returns_record (env 0) (patched_with [bob]) "10001"
           (user_data (snd alice))).
  - unfold dict_wf. simpl. constructor; [intros [] | constructor].
  - discriminate.
  - discriminate.
Defined.

(** C10 at work, for both wrappers. *)
Lemma wrappers_only_prepend_witness :
  (exists prefix w2,
      patched_method (env 0) (call_method (env 0) 1000)
        (args_of alice_reason (Some 0%Q)) (patched_with [bob; alice])
      = (Return (prefix ++ "BASE", [1; 2; 3]%Z), w2))
  /\
  (exists prefix w2,
      patched_method_pri (env 0) (call_method (env 0) 1000)
        (args_of alice_reason (Some 0%Q)) (patched_with [bob; alice])
      = (Return (prefix ++ "BASE", [1; 2; 3]%Z), w2)).
Proof.
  pose (w := patched_with [bob; alice]).
  split.
  - apply (proj1 (wrappers_only_prepend (env 0) (call_method (env 0) 1000)
                    (args_of alice_reason (Some 0%Q))
                    w w w (HostMethod 0) 0%Q "BASE" [1; 2; 3]%Z));
      reflexivity.
  - apply (proj2 (wrappers_only_prepend (env 0) (call_method (env 0) 1000)
                    (args_of alice_reason (Some 0%Q))
                    w w w (HostMethod 1) 0%Q "BASE" [1; 2; 3]%Z));
      reflexivity.
Defined.

End Worked.

(* ================================================================== *)
(** ** Further properties of the profile cache *)
(* ================================================================== *)

Section SweepFacts.

Context {V : Type}.
Implicit Types (d : dict V) (k : string).

(** Deleting keys one after the other keeps the items under other keys. *)
Lemma dict_del_keys_filter keys d :
  fold_left (fun c k => dict_del k c) keys d
  = filter (fun kv => negb (existsb (String.eqb (fst kv)) keys)) d.
Proof.
  revert d. induction keys as [|k0 keys IH]; intros d; simpl.
  - induction d as [|kv d IHd]; simpl; [reflexivity | now rewrite <- IHd].
  - rewrite IH. unfold dict_del.
    induction d as [|kv d IHd]; simpl; [reflexivity|].
    destruct (String.eqb (fst kv) k0); simpl; [exact IHd|].
    destruct (existsb (String.eqb (fst kv)) keys); simpl;
      [exact IHd | now rewrite IHd].
Qed.

Lemma existsb_eqb_In k keys :
  existsb (String.eqb k) keys = true <-> In k keys.
Proof.
  rewrite existsb_exists. split.
  - intros [x [I E]]. apply String.eqb_eq in E. now subst.
  - intros I. exists k. split; [exact I | apply String.eqb_refl].
Qed.

End SweepFacts.

Section MoreCacheFacts.

Variable env : Env.

(** What a sweep at time [t] leaves of a dictionary: its unexpired entries,
    in their order. *)
Lemma sweep_of_dictionary (t : Q) (cache : dict UserInfoCache) :
  dict_wf cache ->
  fold_left (fun c k => dict_del k c) (expired_keys_of t cache) cache
  = filter (fun kv => Qle_bool (t - entry_timestamp (snd kv)) 600) cache.
Proof.
  intros Hwf. rewrite dict_del_keys_filter. apply filter_ext_in.
  intros [k e] I. simpl.
  destruct (Qle_bool (t - entry_timestamp e) 600) eqn:L.
  - apply negb_true_iff.
    destruct (existsb (String.eqb k) (expired_keys_of t cache)) eqn:X;
      [|reflexivity].
    apply existsb_eqb_In, expired_keys_of_In in X as [e' [I' H]].
    apply (dict_get_wf_In _ _ _ Hwf) in I, I'.
    assert (e' = e) by congruence. subst e'.
    apply Qle_bool_iff in L. exfalso. exact (Qlt_not_le _ _ H L).
  - apply negb_false_iff, existsb_eqb_In, expired_keys_of_In.
    exists e. split; [exact I | now apply Qle_bool_false].
Qed.

(** No expired entry survives a sweep, whatever the list of items. *)
Lemma sweep_leaves_no_expired (t : Q) (cache : dict UserInfoCache) k e :
  In (k, e)
    (fold_left (fun c k' => dict_del k' c) (expired_keys_of t cache) cache) ->
  In (k, e) cache /\ (t - entry_timestamp e <= 600)%Q.
Proof.
  rewrite dict_del_keys_filter. intros I.
  apply filter_In in I as [I N]. simpl in N. split; [exact I|].
  apply Qnot_lt_le. intros H.
  apply negb_true_iff in N.
  assert (X : existsb (String.eqb k) (expired_keys_of t cache) = true).
  { apply existsb_eqb_In, expired_keys_of_In. now exists e. }
  congruence.
Qed.

(** Looking a user up among the unexpired records of a dictionary. *)
Lemma dict_get_fresh_items (t : Q) (cache : dict UserInfoCache) (uid : string) :
  dict_wf cache ->
  dict_get uid (fresh_items t cache)
  = match dict_get uid cache with
    | Some e => if Qle_bool (t - entry_timestamp e) 600
                then Some (user_data e) else None
    | None => None
    end.
Proof.
  unfold dict_wf, fresh_items.
  induction cache as [|[k e] cache IH]; simpl; [reflexivity|].
  intros Hwf. inversion Hwf as [|? ? Hnotin Hwf']; subst.
  destruct (String.eqb_spec k uid) as [->|Hne].
  - destruct (Qle_bool (t - entry_timestamp e) 600); simpl.
    + now rewrite String.eqb_refl.
    + rewrite (IH Hwf').
      apply dict_get_None in Hnotin. now rewrite Hnotin.
  - destruct (Qle_bool (t - entry_timestamp e) 600); simpl.
    + destruct (String.eqb_spec k uid); [contradiction|]. exact (IH Hwf').
    + exact (IH Hwf').
Qed.

(** X1. [clear_expired_cache] on a cache that is a dictionary keeps exactly
    the entries aged at most 600 seconds at its reading of the clock, in their
    order, and returns the number of entries it removed. *)
Theorem clear_expired_cache_counts_what_it_removes (w : World) :
  dict_wf (_global_user_cache w) ->
  exists n w',
    clear_expired_cache env w = (Return n, w')
    /\ _global_user_cache w'
       = filter (fun kv => Qle_bool (clock env (clock_reads w)
                                     - entry_timestamp (snd kv)) 600)
           (_global_user_cache w)
    /\ (n + List.length (_global_user_cache w')
        = List.length (_global_user_cache w))%nat.
Proof.
  intros Hwf.
  unfold clear_expired_cache, bind, gets, time_time, del_keys, modify, ret.
  simpl. do 2 eexists. split; [reflexivity|]. simpl.
  rewrite (sweep_of_dictionary _ _ Hwf). split; [reflexivity|].
  unfold expired_keys_of, Qgt_bool. rewrite length_map, Nat.add_comm.
  apply filter_length.
Qed.

(** X2. After [store_user_info], whoever the user is, every entry of the cache
    is at most 600 seconds old at the reading of the clock that the sweep
    used: storing one profile evicts the expired profiles of all users. *)
Theorem store_evicts_every_expired_entry
    (w : World) (uid : string) (data : UserInfoData) (k : string)
    (e : UserInfoCache) :
  In (k, e) (_global_user_cache (snd (store_user_info env uid data w))) ->
  (clock env (S (clock_reads w)) - entry_timestamp e <= 600)%Q.
Proof.
  unfold store_user_info, bind, gets, time_time, modify, del_keys. simpl.
  intros I. now apply sweep_leaves_no_expired in I.
Qed.

(** X3. [store_user_info] for one user leaves the unexpired entry of every
    other user as it is, when the cache is a dictionary. *)
Theorem store_keeps_other_fresh_entries
    (w : World) (uid other : string) (data : UserInfoData) (e : UserInfoCache) :
  dict_wf (_global_user_cache w) ->
  other <> uid ->
  dict_get other (_global_user_cache w) = Some e ->
  (clock env (S (clock_reads w)) - entry_timestamp e <= 600)%Q ->
  dict_get other (_global_user_cache (snd (store_user_info env uid data w)))
  = Some e.
Proof.
  intros Hwf Hne Hget Hfresh.
  unfold store_user_info, bind, gets, time_time, modify, del_keys. simpl.
  set (c1 := dict_set uid _ (_global_user_cache w)).
  assert (Hwf1 : dict_wf c1) by now apply dict_set_wf.
  assert (Hget1 : dict_get other c1 = Some e).
  { unfold c1. clear Hwf1 c1 Hwf.
    induction (_global_user_cache w) as [|[k0 v0] c IH]; simpl in *;
      [discriminate|].
    destruct (String.eqb_spec k0 uid) as [->|Hk]; simpl.
    - destruct (String.eqb_spec uid other); [congruence | exact Hget].
    - destruct (String.eqb_spec k0 other); [exact Hget | now apply IH]. }
  rewrite dict_get_del_keys_notin; [exact Hget1|].
  intros I. apply expired_keys_of_In in I as [e' [I H]].
  apply (dict_get_wf_In _ _ _ Hwf1) in I.
  assert (e' = e) by congruence. subst e'.
  exact (Qlt_not_le _ _ H Hfresh).
Qed.

(** X4. On a cache that is a dictionary, [get_user_info] and
    [get_all_user_info] called at the same reading of the clock agree on
    every user: the one returns the record that the other lists under that
    user id, and [None] when the other lists none. *)
Theorem get_agrees_with_get_all (w : World) (uid : string) :
  dict_wf (_global_user_cache w) ->
  exists result,
    fst (get_all_user_info env w) = Return result
    /\ fst (get_user_info env uid w) = Return (dict_get uid result).
Proof.
  intros Hwf. rewrite get_all_user_info_run. simpl.
  eexists. split; [reflexivity|].
  pose proof (get_all_fold_fresh (clock env (clock_reads w))
                (_global_user_cache w) ([], []) Hwf) as E.
  simpl in E. rewrite E, (dict_get_fresh_items _ _ _ Hwf).
  unfold get_user_info, bind, gets, time_time. simpl.
  destruct (dict_get uid (_global_user_cache w)) as [e|]; [|reflexivity].
  now destruct (Qle_bool (clock env (clock_reads w) - entry_timestamp e) 600).
Qed.

(** X5. After [get_all_user_info] on a cache that is a dictionary, the
    result lists exactly the entries that are left in the cache, in the same
    order: each remaining entry with its record, and nothing else. *)
Theorem get_all_lists_what_remains (w : World) :
  dict_wf (_global_user_cache w) ->
  exists result w',
    get_all_user_info env w = (Return result, w')
    /\ result
       = map (fun kv => (fst kv, user_data (snd kv))) (_global_user_cache w')
    /\ _global_user_cache w'
       = filter (fun kv => Qle_bool (clock env (clock_reads w)
                                     - entry_timestamp (snd kv)) 600)
           (_global_user_cache w).
Proof.
  intros Hwf. rewrite get_all_user_info_run.
  do 2 eexists. split; [reflexivity|]. simpl.
  rewrite (sweep_of_dictionary _ _ Hwf). split; [|reflexivity].
  pose proof (get_all_fold_fresh (clock env (clock_reads w))
                (_global_user_cache w) ([], []) Hwf) as E.
  simpl in E. exact E.
Qed.

End MoreCacheFacts.

(* ================================================================== *)
(** ** Further properties of the fetch client *)
(* ================================================================== *)

Lemma string_rev_app (a b : string) :
  string_rev (a ++ b) = string_rev b ++ string_rev a.
Proof.
  induction a as [|x a IH]; simpl.
  - induction (string_rev b) as [|y r IHr]; simpl; [reflexivity | now rewrite <- IHr].
  - now rewrite IH, string_app_assoc.
Qed.

Lemma string_rev_length (s : string) :
  String.length (string_rev s) = String.length s.
Proof.
  induction s as [|x s IH]; simpl; [reflexivity|].
  rewrite <- IH. generalize (string_rev s) as r.
  induction r as [|y r IHr]; simpl; [reflexivity | now rewrite IHr].
Qed.

(** With enough fuel, stripping the one-character set is [skip_leading]. *)
Lemma lstrip_from_char (c : ascii) (n : nat) (s : string) :
  (String.length s <= n)%nat ->
  lstrip_from n [String c EmptyString] s = skip_leading c s.
Proof.
  revert s. induction n as [|n IH]; intros s Hlen.
  - destruct s; [reflexivity | simpl in Hlen; lia].
  - destruct s as [|a s]; [reflexivity|]. simpl.
    destruct (Ascii.eqb c a); [|reflexivity].
    apply IH. simpl in Hlen. lia.
Qed.

Lemma rstrip_char_skip (c : ascii) (s : string) :
  rstrip_char c s = string_rev (skip_leading c (string_rev s)).
Proof.
  unfold rstrip_char, rstrip_set, lstrip_set. simpl. f_equal.
  now apply lstrip_from_char.
Qed.

(** One more trailing [c] changes nothing of [s.rstrip(c)]. *)
Lemma rstrip_char_trailing (c : ascii) (s : string) :
  rstrip_char c (s ++ String c EmptyString) = rstrip_char c s.
Proof.
  rewrite !rstrip_char_skip, string_rev_app. simpl.
  now rewrite Ascii.eqb_refl.
Qed.

Section MoreFetchFacts.

Variable env : Env.

(** An enabled client: the reply and the world after the call. *)
Lemma fetch_user_info_enabled_run (self : ApiService) (uid : string)
    (w : World) (b : string) :
  truthy (enable_api self) = true ->
  base_url self = VStr b ->
  let url := rstrip_char "/" b ++ "/get_info/" ++ uid in
  fetch_user_info env self uid w
  = (Return (reply_of (http_post env url (timeout self))),
     add_event (EvPost url)
       (match _session self with
        | Some _ => w
        | None => set_api_service (Some (with_session self))
                    (add_event EvSessionCreated w)
        end)).
Proof.
  intros Hon Hurl url. unfold fetch_user_info. rewrite Hon, Hurl. cbn [negb].
  unfold rstrip_slash. unfold bind at 1, lift at 1. fold url.
  unfold bind at 1, get_session.
  destruct (_session self) as [session|].
  - unfold ret at 1. unfold try_except, bind at 1, modify at 1.
    unfold bind at 1, lift at 1. unfold reply_of.
    destruct (http_post env url (timeout self)) as [[status json]|e].
    + destruct (Z.eqb status 200); [|reflexivity].
      unfold bind, lift, ret. destruct json as [data|e]; [reflexivity|].
      now destruct (is_timeout e).
    + now destruct (is_timeout e).
  - unfold bind at 1, modify at 1. unfold bind at 1, modify at 1.
    unfold ret at 1. unfold try_except, bind at 1, modify at 1.
    unfold bind at 1, lift at 1. unfold reply_of, with_session.
    destruct (http_post env url (timeout self)) as [[status json]|e].
    + destruct (Z.eqb status 200); [|reflexivity].
      unfold bind, lift, ret. destruct json as [data|e]; [reflexivity|].
      now destruct (is_timeout e).
    + now destruct (is_timeout e).
Qed.

(** X6. An enabled client whose [base_url] is a string sends exactly one
    request per call of [fetch_user_info], to the base URL without its
    trailing slashes followed by [/get_info/] and the user id; it creates a
    session first only when it has none, and then keeps it.  The cache is not
    touched. *)
Theorem fetch_sends_one_request
    (self : ApiService) (uid : string) (w : World) (b : string) :
  truthy (enable_api self) = true ->
  base_url self = VStr b ->
  let url := rstrip_char "/" b ++ "/get_info/" ++ uid in
  let w' := snd (fetch_user_info env self uid w) in
  events w'
  = (events w
     ++ match _session self with Some _ => [] | None => [EvSessionCreated] end
     ++ [EvPost url])%list
  /\ api_service w'
     = match _session self with
       | Some _ => api_service w
       | None => Some (with_session self)
       end
  /\ _global_user_cache w' = _global_user_cache w.
Proof.
  intros Hon Hurl url w'. unfold w'.
  rewrite (fetch_user_info_enabled_run self uid w b Hon Hurl). fold url.
  destruct (_session self); simpl; repeat split; try reflexivity.
  now rewrite <- app_assoc.
Qed.

(** X7. A trailing slash on [base_url] makes no difference to an enabled
    client: the request goes to the same URL, so the reply and the events are
    the same. *)
Theorem trailing_slash_is_ignored
    (self : ApiService) (uid : string) (w : World) (b : string) :
  truthy (enable_api self) = true ->
  let slashed := with_base_url (VStr (b ++ "/")) self in
  let plain := with_base_url (VStr b) self in
  fst (fetch_user_info env slashed uid w) = fst (fetch_user_info env plain uid w)
  /\ events (snd (fetch_user_info env slashed uid w))
     = events (snd (fetch_user_info env plain uid w)).
Proof.
  intros Hon slashed plain.
  rewrite (fetch_user_info_enabled_run slashed uid w (b ++ "/") Hon eq_refl).
  rewrite (fetch_user_info_enabled_run plain uid w b Hon eq_refl).
  rewrite rstrip_char_trailing. simpl.
  split; [reflexivity|]. now destruct (_session self).
Qed.

(** X8. A response with status 200 whose body does not parse is not a
    success: an enabled client reports it with [success = False] and
    [status_code = 0], not 200, as a timeout when the parse timed out and as
    a request error carrying the exception's text otherwise. *)
Theorem unparsable_body_is_an_error
    (self : ApiService) (uid : string) (w : World) (b : string) (e : exn) :
  truthy (enable_api self) = true ->
  base_url self = VStr b ->
  http_post env (rstrip_char "/" b ++ "/get_info/" ++ uid) (timeout self)
  = Return (200%Z, Raise e) ->
  fst (fetch_user_info env self uid w)
  = Return [ ("success", VBool false); ("data", VNone);
             ("status_code", VInt 0);
             ("error", VStr (if is_timeout e then "API请求超时"
                             else "请求错误: " ++ exn_msg e)) ].
Proof.
  intros Hon Hurl Hpost.
  rewrite (fetch_user_info_enabled_run self uid w b Hon Hurl), Hpost.
  simpl. now destruct (is_timeout e).
Qed.

End MoreFetchFacts.

(* ================================================================== *)
(** ** Further properties of the patch and of the plugin life cycle *)
(* ================================================================== *)

Section PatchFacts.

Lemma apply_user_info_patch_run (w : World) :
  replyers_importable w = true ->
  apply_user_info_patch w = (Return true, after_patch w).
Proof.
  intros Hi.
  cbv beta iota zeta delta
    [apply_user_info_patch patch_build_prompt_reply_context try_except bind
     import_replyers gets modify ret raise].
  unfold after_patch.
  destruct w as [n c og op a dg dp i s ini ad ev]. simpl in Hi. subst i.
  destruct og, op; reflexivity.
Qed.

Lemma apply_user_info_patch_fails (w : World) :
  replyers_importable w = false ->
  apply_user_info_patch w = (Return false, w).
Proof.
  intros Hi.
  cbv beta iota zeta delta
    [apply_user_info_patch patch_build_prompt_reply_context try_except bind
     import_replyers gets modify ret raise].
  now rewrite Hi.
Qed.

Lemma remove_user_info_patch_refuses (w : World) :
  _patch_applied w = false
  \/ _original_build_prompt_reply_context_group w = None
  \/ replyers_importable w = false ->
  remove_user_info_patch w = (Return false, w).
Proof.
  intros H.
  cbv beta iota zeta delta
    [remove_user_info_patch try_except bind import_replyers gets modify ret
     raise].
  destruct (_original_build_prompt_reply_context_group w) as [g|];
    [|reflexivity].
  destruct (_patch_applied w); [|reflexivity].
  destruct H as [H|[H|H]]; try discriminate.
  now rewrite H.
Qed.


(** X10. When the host's replyer modules do not import, nothing is patched
    and nothing raises: [apply_user_info_patch] answers [False], and it, the
    plugin's initialiser, the start-up thread and [on_plugin_enable] all leave
    the process as it was. *)
Theorem failed_import_changes_nothing (w : World) :
  replyers_importable w = false ->
  apply_user_info_patch w = (Return false, w)
  /\ UserInfoPlugin_init w = (Return tt, w)
  /\ delayed_patch w = (Return tt, w)
  /\ on_plugin_enable w = (Return tt, w).
Proof.
  intros Hi. pose proof (apply_user_info_patch_fails w Hi) as E.
  unfold UserInfoPlugin_init, delayed_patch, on_plugin_enable, try_except, bind.
  rewrite E. repeat split; reflexivity.
Qed.

(** X11. [remove_user_info_patch] answers [False] and changes nothing when
    the flag is not set, when no original of the group method is saved, or
    when the host's replyer modules do not import; [on_plugin_disable] then
    changes nothing either, and [on_plugin_unload] only empties the cache: in
    the last case the wrappers stay installed. *)
Theorem refused_removal_changes_nothing (w : World) :
  _patch_applied w = false
  \/ _original_build_prompt_reply_context_group w = None
  \/ replyers_importable w = false ->
  remove_user_info_patch w = (Return false, w)
  /\ on_plugin_disable w = (Return tt, w)
  /\ on_plugin_unload w = (Return tt, set_cache [] w).
Proof.
  intros H. pose proof (remove_user_info_patch_refuses w H) as E.
  unfold on_plugin_disable, on_plugin_unload, try_except, bind.
  rewrite E. repeat split; reflexivity.
Qed.

(** X12. Disabling and enabling again is a round trip.  From a patched
    process, [on_plugin_disable] puts both saved originals back, clears the
    flag and keeps the cache and the saved originals; [on_plugin_enable] then
    leads back to exactly the process before. *)
Theorem disable_then_enable_round_trip (w : World) (g p : Method) :
  _patch_applied w = true ->
  _original_build_prompt_reply_context_group w = Some g ->
  _original_build_prompt_reply_context_pri w = Some p ->
  DefaultReplyer_build_prompt_reply_context w = Some PatchedMethod ->
  PrivateReplyer_build_prompt_reply_context w = Some PatchedMethodPri ->
  replyers_importable w = true ->
  exists w1,
    on_plugin_disable w = (Return tt, w1)
    /\ DefaultReplyer_build_prompt_reply_context w1 = Some g
    /\ PrivateReplyer_build_prompt_reply_context w1 = Some p
    /\ _patch_applied w1 = false
    /\ _global_user_cache w1 = _global_user_cache w
    /\ on_plugin_enable w1 = (Return tt, w).
Proof.
  intros Ha Hg Hp Hdg Hdp Hi.
  unfold on_plugin_disable, on_plugin_enable, try_except, bind.
  rewrite (remove_user_info_patch_run w g Ha Hg Hi), Hp.
  eexists. split; [reflexivity|].
  repeat split; try reflexivity.
  rewrite apply_user_info_patch_run by exact Hi.
  unfold after_patch. simpl. rewrite Hg, Hp.
  destruct w. simpl in *. subst. reflexivity.
Qed.

(** X13. The start-up applies the patch twice, in the plugin's initialiser
    and in the start-up thread; the second application changes nothing, and
    [on_plugin_unload] afterwards hands both class attributes back to the
    host's own methods, clears the flag and empties the cache. *)
Theorem start_up_then_unload_restores_host (w : World) (g p : Method) :
  replyers_importable w = true ->
  _original_build_prompt_reply_context_group w = None ->
  _original_build_prompt_reply_context_pri w = None ->
  DefaultReplyer_build_prompt_reply_context w = Some g ->
  PrivateReplyer_build_prompt_reply_context w = Some p ->
  exists w1 w2,
    UserInfoPlugin_init w = (Return tt, w1)
    /\ delayed_patch w1 = (Return tt, w1)
    /\ DefaultReplyer_build_prompt_reply_context w1 = Some PatchedMethod
    /\ PrivateReplyer_build_prompt_reply_context w1 = Some PatchedMethodPri
    /\ on_plugin_unload w1 = (Return tt, w2)
    /\ DefaultReplyer_build_prompt_reply_context w2 = Some g
    /\ PrivateReplyer_build_prompt_reply_context w2 = Some p
    /\ _patch_applied w2 = false
    /\ _global_user_cache w2 = [].
Proof.
  intros Hi Hog Hop Hg Hp.
  destruct w as [n c og op a dg dp i s ini ad ev]. simpl in *. subst.
  do 2 eexists. repeat split; reflexivity.
Qed.

End PatchFacts.

(* ================================================================== *)
(** ** Further properties of the prompt interceptor *)
(* ================================================================== *)

Section MoreInterceptorFacts.

Variable env : Env.

Lemma sender_name_of_needs_parenthesis (reason name : string) :
  sender_name_of reason = Return name -> contains "(" reason = true.
Proof.
  intros H. destruct (contains "(" reason) eqn:E; [reflexivity|].
  rewrite (sender_name_of_without_parenthesis _ E) in H. discriminate.
Qed.

(** The [try] block up to the point where it holds a matching record that
    passed both freshness tests; what follows is the rest of the block. *)
Lemma enhance_at_record
    (header : string -> string -> string -> string -> string)
    (header_failed : string -> string -> string)
    (reason base_prompt name : string) (w : World)
    (pre post : dict UserInfoCache) (uid : string) (e : UserInfoCache) :
  sender_name_of reason = Return name ->
  dict_wf (_global_user_cache w) ->
  _global_user_cache w = (pre ++ (uid, e) :: post)%list ->
  uid <> "" ->
  (forall k e', In (k, e') pre -> display_name (user_data e') = name ->
                (600 < clock env (clock_reads w) - entry_timestamp e')%Q) ->
  display_name (user_data e) = name ->
  (clock env (clock_reads w) - entry_timestamp e <= 600)%Q ->
  (clock env (S (clock_reads w)) - timestamp (user_data e) < 600)%Q ->
  enhance env header header_failed reason base_prompt w
  = (if success (user_data e)
     then
       let payload :=
         dict_get_default "data" (VDict []) (api_data (user_data e)) in
       impression <- lift (value_get payload "impression" (VStr "未知")) ;;
       attitude <- lift (value_get payload "attitude" (VStr "未知")) ;;
       ret (Some (header name (user_id (user_data e))
                    (str (repr_other env) impression)
                    (str (repr_other env) attitude)
                  ++ impression_prompt ++ base_prompt))
     else
       ret (Some (header_failed name (user_id (user_data e)) ++ base_prompt)))
      (snd (time_time env (snd (get_all_user_info env w)))).
Proof.
  intros Hname Hwf Hcache Hne Hpre Hdn Hentry Hrecord.
  pose proof (sender_name_of_needs_parenthesis _ _ Hname) as Hparen.
  unfold enhance. unfold bind at 1. rewrite get_all_user_info_run.
  set (t1 := clock env (clock_reads w)) in *.
  rewrite (get_all_fold_fresh t1 (_global_user_cache w) ([], [])) by exact Hwf.
  cbn [fst snd app].
  assert (Hitems : fresh_items t1 (_global_user_cache w)
                   = (fresh_items t1 pre
                      ++ (uid, user_data e) :: fresh_items t1 post)%list).
  { rewrite Hcache, fresh_items_app. f_equal. unfold fresh_items. simpl.
    apply Qle_bool_iff in Hentry. now rewrite Hentry. }
  assert (Hfind : find_sender name (fresh_items t1 (_global_user_cache w))
                  = Some uid).
  { rewrite Hitems, find_sender_app.
    - simpl. rewrite Hdn. now rewrite String.eqb_refl.
    - intros k d I E. apply fresh_items_In in I as [e' [I [L ->]]].
      apply (Qlt_not_le _ _ (Hpre k e' I E) L). }
  assert (Hget : dict_get uid (fresh_items t1 (_global_user_cache w))
                 = Some (user_data e)).
  { apply dict_get_wf_In; [now apply fresh_items_wf|].
    rewrite Hitems. apply in_or_app. right. now left. }
  unfold bind at 1. rewrite Hparen, orb_true_r.
  unfold bind at 1, lift at 1. rewrite Hname. unfold ret at 1. rewrite Hfind.
  unfold dict_mem. rewrite Hget, (nonempty_true _ Hne).
  cbn [andb]. unfold bind at 1, lift at 1. unfold bind at 1, time_time.
  cbn [clock_reads set_cache set_clock_reads fst snd].
  apply Qlt_bool_iff in Hrecord. rewrite Hrecord, Hdn.
  reflexivity.
Qed.

(** What [finish] returns once the [try] block has returned a prompt. *)
Lemma finish_enhanced
    (header : string -> string -> string -> string -> string)
    (header_failed : string -> string -> string)
    (reason base_prompt enhanced : string) (token_list : list Z)
    (w w' : World) :
  base_prompt <> "" ->
  enhance env header header_failed reason base_prompt w
  = (Return (Some enhanced), w') ->
  finish env header header_failed reason (base_prompt, token_list) w
  = (Return (enhanced, token_list), w').
Proof.
  intros Hbp He. unfold finish. rewrite (nonempty_true _ Hbp). cbn [negb].
  unfold bind, try_except. now rewrite He.
Qed.

(** What [finish] returns once the [try] block has raised. *)
Lemma finish_swallows
    (header : string -> string -> string -> string -> string)
    (header_failed : string -> string -> string)
    (reason base_prompt : string) (token_list : list Z)
    (w w' : World) (x : exn) :
  base_prompt <> "" ->
  enhance env header header_failed reason base_prompt w = (Raise x, w') ->
  finish env header header_failed reason (base_prompt, token_list) w
  = (Return (base_prompt, token_list), w').
Proof.
  intros Hbp He. unfold finish. rewrite (nonempty_true _ Hbp). cbn [negb].
  unfold bind, try_except. now rewrite He.
Qed.

(** X14. When the original builder returns an empty prompt, either wrapper
    hands the result back at once: the cache is not read, no entry is
    evicted and the clock is not read again, so the process is left exactly
    as the original left it. *)
Theorem empty_base_prompt_is_returned_at_once
    (invoke : Method -> Builder) (args : BuildArgs) (w w0 w1 : World)
    (m : Method) (t : Q) (token_list : list Z) :
  (_original_build_prompt_reply_context_group w = Some m ->
   default_time_point env args w = (Return t, w0) ->
   invoke m (with_time_point (Some t) args) w0 = (Return ("", token_list), w1) ->
   patched_method env invoke args w = (Return ("", token_list), w1))
  /\
  (_original_build_prompt_reply_context_pri w = Some m ->
   invoke m (with_time_point None args) w = (Return ("", token_list), w1) ->
   patched_method_pri env invoke args w = (Return ("", token_list), w1)).
Proof.
  split.
  - intros Ho Ht Hi. now rewrite (patched_method_run _ _ _ _ _ _ _ _ _ Ho Ht Hi).
  - intros Ho Hi. now rewrite (patched_method_pri_run _ _ _ _ _ _ _ Ho Hi).
Qed.

(** X15. Either wrapper, for any [reply_reason] from which a name is
    extracted: when the first unexpired record of that name in cache order
    is stored under a non-empty key, was fetched successfully, passes both
    freshness tests and carries a dictionary under [api_data["data"]], the
    wrapper returns its own header for that record, then the tier block, then
    the base prompt.  The header shows the record's display name and user id
    and the text of the values under "impression" and "attitude", with the
    placeholder text of the source for a key that is missing. *)
Theorem matched_record_is_injected
    (invoke : Method -> Builder) (args : BuildArgs) (w w0 w1 : World)
    (m : Method) (t : Q) (base_prompt name : string) (token_list : list Z)
    (pre post : dict UserInfoCache) (uid : string) (e : UserInfoCache)
    (payload : dict value) :
  sender_name_of (reply_reason args) = Return name ->
  base_prompt <> "" ->
  dict_wf (_global_user_cache w1) ->
  _global_user_cache w1 = (pre ++ (uid, e) :: post)%list ->
  uid <> "" ->
  (forall k e', In (k, e') pre -> display_name (user_data e') = name ->
                (600 < clock env (clock_reads w1) - entry_timestamp e')%Q) ->
  display_name (user_data e) = name ->
  (clock env (clock_reads w1) - entry_timestamp e <= 600)%Q ->
  (clock env (S (clock_reads w1)) - timestamp (user_data e) < 600)%Q ->
  success (user_data e) = true ->
  dict_get "data" (api_data (user_data e)) = Some (VDict payload) ->
  let impression :=
    str (repr_other env) (dict_get_default "impression" (VStr "未知") payload) in
  let attitude :=
    str (repr_other env) (dict_get_default "attitude" (VStr "未知") payload) in
  (_original_build_prompt_reply_context_group w = Some m ->
   default_time_point env args w = (Return t, w0) ->
   invoke m (with_time_point (Some t) args) w0
   = (Return (base_prompt, token_list), w1) ->
   fst (patched_method env invoke args w)
   = Return (user_prompt_group name (user_id (user_data e)) impression attitude
             ++ impression_prompt ++ base_prompt, token_list))
  /\
  (_original_build_prompt_reply_context_pri w = Some m ->
   invoke m (with_time_point None args) w
   = (Return (base_prompt, token_list), w1) ->
   fst (patched_method_pri env invoke args w)
   = Return (user_prompt_pri name (user_id (user_data e)) impression attitude
             ++ impression_prompt ++ base_prompt, token_list)).
Proof.
  intros Hname Hbp Hwf Hcache Hne Hpre Hdn Hentry Hrecord Hok Hdata
    impression attitude.
  assert (Hp : dict_get_default "data" (VDict []) (api_data (user_data e))
               = VDict payload)
    by (unfold dict_get_default; now rewrite Hdata).
  assert (He : forall header header_failed,
             enhance env header header_failed (reply_reason args) base_prompt w1
             = (Return (Some (header name (user_id (user_data e)) impression
                                attitude
                              ++ impression_prompt ++ base_prompt)),
                snd (time_time env (snd (get_all_user_info env w1))))).
  { intros header header_failed.
    rewrite (enhance_at_record header header_failed _ base_prompt name w1 pre
               post uid e Hname Hwf Hcache Hne Hpre Hdn Hentry Hrecord).
    rewrite Hok. cbv zeta. rewrite Hp. reflexivity. }
  split.
  - intros Ho Ht Hi. rewrite (patched_method_run _ _ _ _ _ _ _ _ _ Ho Ht Hi).
    now rewrite (finish_enhanced _ _ _ _ _ _ _ _ Hbp (He _ _)).
  - intros Ho Hi. rewrite (patched_method_pri_run _ _ _ _ _ _ _ Ho Hi).
    now rewrite (finish_enhanced _ _ _ _ _ _ _ _ Hbp (He _ _)).
Qed.

(** X16. Either wrapper, when the matching record comes from a failed fetch
    ([success = False]): the wrapper prepends its short header only, which
    names the user and states the fixed values of the source, with no tier
    block; what the record carries under [api_data] is not read. *)
Theorem failed_fetch_gets_the_short_header
    (invoke : Method -> Builder) (args : BuildArgs) (w w0 w1 : World)
    (m : Method) (t : Q) (base_prompt name : string) (token_list : list Z)
    (pre post : dict UserInfoCache) (uid : string) (e : UserInfoCache) :
  sender_name_of (reply_reason args) = Return name ->
  base_prompt <> "" ->
  dict_wf (_global_user_cache w1) ->
  _global_user_cache w1 = (pre ++ (uid, e) :: post)%list ->
  uid <> "" ->
  (forall k e', In (k, e') pre -> display_name (user_data e') = name ->
                (600 < clock env (clock_reads w1) - entry_timestamp e')%Q) ->
  display_name (user_data e) = name ->
  (clock env (clock_reads w1) - entry_timestamp e <= 600)%Q ->
  (clock env (S (clock_reads w1)) - timestamp (user_data e) < 600)%Q ->
  success (user_data e) = false ->
  (_original_build_prompt_reply_context_group w = Some m ->
   default_time_point env args w = (Return t, w0) ->
   invoke m (with_time_point (Some t) args) w0
   = (Return (base_prompt, token_list), w1) ->
   fst (patched_method env invoke args w)
   = Return (user_prompt_group_failed name (user_id (user_data e))
             ++ base_prompt, token_list))
  /\
  (_original_build_prompt_reply_context_pri w = Some m ->
   invoke m (with_time_point None args) w
   = (Return (base_prompt, token_list), w1) ->
   fst (patched_method_pri env invoke args w)
   = Return (user_prompt_pri_failed name (user_id (user_data e))
             ++ base_prompt, token_list)).
Proof.
  intros Hname Hbp Hwf Hcache Hne Hpre Hdn Hentry Hrecord Hok.
  assert (He : forall header header_failed,
             enhance env header header_failed (reply_reason args) base_prompt w1
             = (Return (Some (header_failed name (user_id (user_data e))
                              ++ base_prompt)),
                snd (time_time env (snd (get_all_user_info env w1))))).
  { intros header header_failed.
    rewrite (enhance_at_record header header_failed _ base_prompt name w1 pre
               post uid e Hname Hwf Hcache Hne Hpre Hdn Hentry Hrecord).
    now rewrite Hok. }
  split.
  - intros Ho Ht Hi. rewrite (patched_method_run _ _ _ _ _ _ _ _ _ Ho Ht Hi).
    now rewrite (finish_enhanced _ _ _ _ _ _ _ _ Hbp (He _ _)).
  - intros Ho Hi. rewrite (patched_method_pri_run _ _ _ _ _ _ _ Ho Hi).
    now rewrite (finish_enhanced _ _ _ _ _ _ _ _ Hbp (He _ _)).
Qed.

(** X17. Either wrapper, when the matching record was fetched successfully
    but what it carries under [api_data["data"]] is not a dictionary (the
    endpoint answered with a JSON list, string or number): reading the
    impression raises, the wrapper swallows the exception and returns the
    base prompt and the token list unchanged. *)
Theorem payload_that_is_no_dictionary_is_skipped
    (invoke : Method -> Builder) (args : BuildArgs) (w w0 w1 : World)
    (m : Method) (t : Q) (base_prompt name : string) (token_list : list Z)
    (pre post : dict UserInfoCache) (uid : string) (e : UserInfoCache)
    (payload : value) :
  sender_name_of (reply_reason args) = Return name ->
  base_prompt <> "" ->
  dict_wf (_global_user_cache w1) ->
  _global_user_cache w1 = (pre ++ (uid, e) :: post)%list ->
  uid <> "" ->
  (forall k e', In (k, e') pre -> display_name (user_data e') = name ->
                (600 < clock env (clock_reads w1) - entry_timestamp e')%Q) ->
  display_name (user_data e) = name ->
  (clock env (clock_reads w1) - entry_timestamp e <= 600)%Q ->
  (clock env (S (clock_reads w1)) - timestamp (user_data e) < 600)%Q ->
  success (user_data e) = true ->
  dict_get "data" (api_data (user_data e)) = Some payload ->
  (forall d, payload <> VDict d) ->
  (_original_build_prompt_reply_context_group w = Some m ->
   default_time_point env args w = (Return t, w0) ->
   invoke m (with_time_point (Some t) args) w0
   = (Return (base_prompt, token_list), w1) ->
   fst (patched_method env invoke args w) = Return (base_prompt, token_list))
  /\
  (_original_build_prompt_reply_context_pri w = Some m ->
   invoke m (with_time_point None args) w
   = (Return (base_prompt, token_list), w1) ->
   fst (patched_method_pri env invoke args w)
   = Return (base_prompt, token_list)).
Proof.
  intros Hname Hbp Hwf Hcache Hne Hpre Hdn Hentry Hrecord Hok Hdata Hnodict.
  assert (Hp : dict_get_default "data" (VDict []) (api_data (user_data e))
               = payload)
    by (unfold dict_get_default; now rewrite Hdata).
  assert (He : forall header header_failed,
             exists x,
               enhance env header header_failed (reply_reason args)
                 base_prompt w1
               = (Raise x,
                  snd (time_time env (snd (get_all_user_info env w1))))).
  { intros header header_failed.
    rewrite (enhance_at_record header header_failed _ base_prompt name w1 pre
               post uid e Hname Hwf Hcache Hne Hpre Hdn Hentry Hrecord).
    rewrite Hok. cbv zeta. rewrite Hp.
    destruct payload; try (eexists; reflexivity).
    exfalso. now apply (Hnodict d). }
  split.
  - intros Ho Ht Hi. rewrite (patched_method_run _ _ _ _ _ _ _ _ _ Ho Ht Hi).
    destruct (He user_prompt_group user_prompt_group_failed) as [x Hx].
    now rewrite (finish_swallows _ _ _ _ _ _ _ _ Hbp Hx).
  - intros Ho Hi. rewrite (patched_method_pri_run _ _ _ _ _ _ _ Ho Hi).
    destruct (He user_prompt_pri user_prompt_pri_failed) as [x Hx].
    now rewrite (finish_swallows _ _ _ _ _ _ _ _ Hbp Hx).
Qed.

End MoreInterceptorFacts.

(* ================================================================== *)
(** ** The name in the first parenthesis *)
(* ================================================================== *)

Lemma split_nonempty (c : ascii) (s : string) : split c s <> [].
Proof.
  destruct s as [|a s]; simpl; [discriminate|].
  destruct (Ascii.eqb a c); [discriminate|].
  destruct (split c s); discriminate.
Qed.

Lemma split_at_first (c : ascii) (a b : string) :
  contains c a = false -> split c (a ++ String c b) = a :: split c b.
Proof.
  induction a as [|x a IH]; simpl.
  - intros _. now rewrite Ascii.eqb_refl.
  - destruct (Ascii.eqb x c); [discriminate|].
    intros H. now rewrite (IH H).
Qed.

Lemma split_head_app (c : ascii) (a b : string) :
  contains c a = false ->
  exists h t, split c b = h :: t /\ split c (a ++ b) = (a ++ h) :: t.
Proof.
  induction a as [|x a IH]; simpl.
  - intros _. destruct (split c b) as [|h t] eqn:E.
    + now destruct (split_nonempty c b).
    + now exists h, t.
  - destruct (Ascii.eqb x c); [discriminate|].
    intros H. destruct (IH H) as [h [t [E1 E2]]].
    exists h, t. split; [exact E1|]. now rewrite E2.
Qed.

Lemma contains_app (c : ascii) (a b : string) :
  contains c (a ++ b) = contains c a || contains c b.
Proof.
  induction a as [|x a IH]; simpl; [reflexivity|].
  now destruct (Ascii.eqb x c).
Qed.

Lemma string_rev_involutive (s : string) : string_rev (string_rev s) = s.
Proof.
  induction s as [|x s IH]; simpl; [reflexivity|].
  rewrite string_rev_app. simpl. now rewrite IH.
Qed.

(** A prefix without [c] cannot be dropped past a [c]. *)
Lemma drop_prefix_stops (c : ascii) (p q r s' : string) :
  contains c p = false ->
  drop_prefix p (q ++ String c r) = Some s' ->
  exists q', s' = q' ++ String c r.
Proof.
  revert q. induction p as [|a p IH]; intros q Hc; simpl.
  - intros [= <-]. now exists q.
  - simpl in Hc. destruct (Ascii.eqb a c) eqn:Eac; [discriminate|].
    destruct q as [|b q]; simpl.
    + now rewrite Eac.
    + destruct (Ascii.eqb a b); [|discriminate]. now apply IH.
Qed.

Lemma drop_any_stops (c : ascii) (ps : list string) (q r s' : string) :
  Forall (fun p => contains c p = false) ps ->
  drop_any ps (q ++ String c r) = Some s' ->
  exists q', s' = q' ++ String c r.
Proof.
  induction 1 as [|p ps Hp _ IH]; simpl; [discriminate|].
  destruct (drop_prefix p (q ++ String c r)) as [s1|] eqn:E.
  - intros [= <-]. exact (drop_prefix_stops c p q r s1 Hp E).
  - exact IH.
Qed.

Lemma lstrip_from_stops (c : ascii) (n : nat) (ps : list string) (q r : string) :
  Forall (fun p => contains c p = false) ps ->
  exists q', lstrip_from n ps (q ++ String c r) = q' ++ String c r.
Proof.
  intros Hps. revert q. induction n as [|n IH]; intros q; simpl.
  - now exists q.
  - destruct (drop_any ps (q ++ String c r)) as [s'|] eqn:E.
    + destruct (drop_any_stops c ps q r s' Hps E) as [q' ->]. apply IH.
    + now exists q.
Qed.

(** A prefix without [c] that does not start [s] does not start [s]
    followed by [c] either. *)
Lemma drop_prefix_app_none (c : ascii) (p s r : string) :
  contains c p = false ->
  drop_prefix p s = None ->
  drop_prefix p (s ++ String c r) = None.
Proof.
  revert s. induction p as [|a p IH]; intros s Hc; simpl; [discriminate|].
  simpl in Hc. destruct (Ascii.eqb a c) eqn:Eac; [discriminate|].
  destruct s as [|b s]; simpl.
  - now rewrite Eac.
  - destruct (Ascii.eqb a b); [now apply IH | reflexivity].
Qed.

Lemma drop_any_app_none (c : ascii) (ps : list string) (s r : string) :
  Forall (fun p => contains c p = false) ps ->
  drop_any ps s = None ->
  drop_any ps (s ++ String c r) = None.
Proof.
  induction 1 as [|p ps Hp _ IH]; simpl; [reflexivity|].
  destruct (drop_prefix p s) eqn:E; [discriminate|].
  intros H. rewrite (drop_prefix_app_none c p s r Hp E). now apply IH.
Qed.

Lemma lstrip_from_none (n : nat) (ps : list string) (s : string) :
  drop_any ps s = None -> lstrip_from n ps s = s.
Proof. intros H. destruct n; simpl; [reflexivity | now rewrite H]. Qed.

Lemma whitespace_has_no_parenthesis :
  Forall (fun p => contains ")" p = false) whitespace
  /\ Forall (fun p => contains ")" p = false) (map string_rev whitespace).
Proof.
  split; apply Forall_forall; intros p I.
  - assert (H : forallb (fun p => negb (contains ")" p)) whitespace = true)
      by reflexivity.
    rewrite forallb_forall in H. now apply negb_true_iff, H.
  - assert (H : forallb (fun p => negb (contains ")" p))
                  (map string_rev whitespace) = true)
      by reflexivity.
    rewrite forallb_forall in H. now apply negb_true_iff, H.
Qed.

(** [strip] leaves a text alone up to its first closing parenthesis when the
    text does not begin with white space. *)
Lemma strip_up_to_parenthesis (name rest : string) :
  starts_with_whitespace name = false ->
  exists rest', strip (name ++ String ")" rest) = name ++ String ")" rest'.
Proof.
  unfold starts_with_whitespace. intros Hws.
  destruct (drop_any whitespace name) eqn:E; [discriminate|].
  destruct whitespace_has_no_parenthesis as [Hw Hr].
  assert (Hl : lstrip_set whitespace (name ++ String ")" rest)
               = name ++ String ")" rest).
  { unfold lstrip_set. apply lstrip_from_none.
    exact (drop_any_app_none ")" whitespace name rest Hw E). }
  assert (Hrev : forall a b,
             string_rev (a ++ String ")" b)
             = string_rev b ++ String ")" (string_rev a)).
  { intros a b. rewrite string_rev_app. cbn [string_rev].
    now rewrite string_app_assoc. }
  unfold strip. rewrite Hl. unfold rstrip_set, lstrip_set. rewrite Hrev.
  destruct (lstrip_from_stops ")"
              (String.length (string_rev rest ++ String ")" (string_rev name)))
              (map string_rev whitespace) (string_rev rest) (string_rev name) Hr)
    as [q' Hq].
  rewrite Hq. exists (string_rev q').
  now rewrite Hrev, string_rev_involutive.
Qed.

(** X18. The name in the first pair of parentheses of [reply_reason] is what
    the wrappers look up: for a reason made of a text without an opening
    parenthesis, then [(], a name, [)] and any text at all, the extraction
    gives that name, provided the name holds no parenthesis and does not
    begin with white space.  White space at the end of the name is kept. *)
Theorem name_in_first_parenthesis_is_extracted (before name after : string) :
  contains "(" before = false ->
  contains "(" name = false ->
  contains ")" name = false ->
  starts_with_whitespace name = false ->
  sender_name_of (before ++ "(" ++ name ++ ")" ++ after) = Return name.
Proof.
  intros Hb Hn1 Hn2 Hws. unfold sender_name_of.
  change (before ++ "(" ++ name ++ ")" ++ after)
    with (before ++ String "(" (name ++ String ")" after)).
  rewrite (split_at_first "(" before _ Hb).
  assert (Hnp : contains "(" (name ++ String ")" EmptyString) = false)
    by (rewrite contains_app, Hn1; reflexivity).
  destruct (split_head_app "(" (name ++ String ")" EmptyString) after Hnp)
    as [h [t [_ E]]].
  rewrite string_app_assoc in E. simpl in E. rewrite E. simpl.
  rewrite string_app_assoc. simpl.
  destruct (strip_up_to_parenthesis name h Hws) as [rest' ->].
  now rewrite (split_at_first ")" name rest' Hn2).
Qed.

(* ================================================================== *)
(** ** Further properties of the message-time collector *)
(* ================================================================== *)

Lemma dict_get_set_other {V} (d : dict V) (k k' : string) (v : V) :
  k <> k' -> dict_get k (dict_set k' v d) = dict_get k d.
Proof.
  intros Hne. induction d as [|[k0 v0] d IH]; simpl.
  - destruct (String.eqb_spec k' k); [congruence | reflexivity].
  - destruct (String.eqb_spec k0 k') as [->|Hk]; simpl.
    + destruct (String.eqb_spec k' k); [congruence | reflexivity].
    + destruct (String.eqb_spec k0 k); [reflexivity | exact IH].
Qed.

Section MoreCollectorFacts.

Variable env : Env.

(** X19. When the configuration switches the collector off, [execute]
    answers at once with [True, True] and the fixed notice, and leaves the
    process as it was: no service is created, the cache is not read and
    nothing is sent. *)
Theorem disabled_collector_does_nothing
    (message : MaiMessages) (w : World) (flag : value) :
  get_config env "user_info.enable_info" (VBool true) = Return flag ->
  truthy flag = false ->
  execute env message w
  = (Return (true, true, "用户信息获取已禁用", None, None), w).
Proof.
  intros Hcfg Hoff. unfold execute, try_except, bind at 1, lift at 1.
  now rewrite Hcfg, Hoff.
Qed.



(** X20. A message without a sender id (no ["user_id"], or a falsy one) is
    skipped: once the service is initialised, [execute] answers [True, True]
    with the fixed notice and leaves the process as it was; the cache is not
    read and nothing is sent. *)
Theorem message_without_sender_is_skipped
    (message : MaiMessages) (w : World) (flag debug : value)
    (info : dict value) :
  get_config env "user_info.enable_info" (VBool true) = Return flag ->
  truthy flag = true ->
  _initialized w = true ->
  message_base_info message = VDict info ->
  get_config env "debug.enable_debug" (VBool false) = Return debug ->
  (if flag_of debug false then preview (plain_text message) else Return tt)
  = Return tt ->
  truthy (dict_get_default "user_id" VNone info) = false ->
  execute env message w
  = (Return (true, true, "无法获取发言者QQ号，跳过信息获取", None, None), w).
Proof.
  intros Hcfg Hon Hinit Hinfo Hdbg Hprev Hid.
  unfold execute, try_except. unfold bind at 1, lift at 1. rewrite Hcfg, Hon.
  cbn [negb]. unfold bind at 1, _initialize_service at 1.
  unfold bind at 1, gets at 1. rewrite Hinit. unfold ret at 1.
  cbv zeta. rewrite Hinfo. unfold value_get.
  unfold bind at 1, lift at 1. unfold bind at 1, lift at 1.
  unfold bind at 1, lift at 1. unfold bind at 1, lift at 1. rewrite Hdbg.
  unfold bind at 1.
  destruct (flag_of debug false).
  - unfold lift at 1. rewrite Hprev, Hid. reflexivity.
  - unfold ret at 1. rewrite Hid. reflexivity.
Qed.






(** X23. The service is set up once.  On the first call, when the five
    configuration lookups return, [_initialize_service] creates the client
    from their values, without a session, and creates the keep-alive task
    exactly when [enable_keep_alive] is truthy; any later call reads no
    configuration and changes nothing. *)
Theorem service_is_initialised_once (w : World) (b k t ka ea : value) :
  _initialized w = false ->
  get_config env "user_info.api_base_url" (VStr "http://10.255.255.254")
  = Return b ->
  get_config env "user_info.keep_alive_url" (VStr "") = Return k ->
  get_config env "user_info.request_timeout" (VFloat (5 # 1)) = Return t ->
  get_config env "user_info.enable_keep_alive" (VBool false) = Return ka ->
  get_config env "user_info.enable_info" (VBool true) = Return ea ->
  exists w1,
    _initialize_service env w = (Return tt, w1)
    /\ api_service w1 = Some (mkApiService b k t ka ea None)
    /\ events w1
       = (events w ++ if truthy ka then [EvCreateTask] else [])%list
    /\ _global_user_cache w1 = _global_user_cache w
    /\ _initialize_service env w1 = (Return tt, w1).
Proof.
  intros Hinit Hb Hk Ht Hka Hea.
  cbv beta iota zeta delta
    [_initialize_service ApiService_init bind gets lift modify ret].
  rewrite Hinit, Hb, Hk, Ht, Hka, Hea.
  destruct (truthy ka); eexists; (split; [reflexivity|]); simpl;
    repeat split; try reflexivity.
  now rewrite app_nil_r.
Qed.

End MoreCollectorFacts.

(* ================================================================== *)
(** ** The further properties at work on the concrete scenarios *)
(* ================================================================== *)

Module WorkedMore.

Import Scenario.

Lemma wf_pair (a b : string) (x y : UserInfoCache) :
  a <> b -> dict_wf [(a, x); (b, y)].
Proof.
  intros Hne. unfold dict_wf. simpl. constructor.
  - intros [E|[]]. now apply Hne.
  - constructor; [intros [] | constructor].
Defined.

Lemma wf_bob_alice : dict_wf [bob; alice].
Proof. apply wf_pair. discriminate. Defined.

Lemma wf_late_bob_alice : dict_wf [late_bob; alice].
Proof. apply wf_pair. discriminate. Defined.

(** X1 at work: at time 1000 Alice's entry has expired, Bob's has not. *)
Lemma clear_expired_cache_counts_what_it_removes_witness :
  exists n w',
    clear_expired_cache (env 1000) (patched_with [late_bob; alice])
    = (Return n, w')
    /\ _global_user_cache w'
       = filter (fun kv => Qle_bool (clock (env 1000) 0
                                     - entry_timestamp (snd kv)) 600)
           [late_bob; alice]
    /\ (n + List.length (_global_user_cache w') = 2)%nat.
Proof.
  exact (clear_expired_cache_counts_what_it_removes (env 1000)
           (patched_with [late_bob; alice]) wf_late_bob_alice).
Defined.

(** X2 at work: storing Bob's profile at time 1000 evicts Alice's. *)
Lemma store_evicts_every_expired_entry_witness :
  _global_user_cache
    (snd (store_user_info (env 1000) "7" (user_data (snd late_bob))
            (patched_with [alice])))
  = [("7", mkUserInfoCache (user_data (snd late_bob)) (clock_from 1000 0))]
  /\ (clock (env 1000) 1 - clock_from 1000 0 <= 600)%Q.
Proof.
  split; [reflexivity|].
  apply (store_evicts_every_expired_entry (env 1000) (patched_with [alice])
           "7" (user_data (snd late_bob)) "7"
           (mkUserInfoCache (user_data (snd late_bob)) (clock_from 1000 0))).
  left. reflexivity.
Defined.

(** X3 at work. *)
Lemma store_keeps_other_fresh_entries_witness :
  dict_get "7"
    (_global_user_cache
       (snd (store_user_info (env 1000) "10001" (user_data (snd alice))
               (patched_with [late_bob; alice]))))
  = Some (snd late_bob).
Proof.
  apply (store_keeps_other_fresh_entries (env 1000)
           (patched_with [late_bob; alice]) "10001" "7");
    [exact wf_late_bob_alice | discriminate | reflexivity | discriminate].
Defined.

(** X4 at work. *)
Lemma get_agrees_with_get_all_witness :
  exists result,
    fst (get_all_user_info (env 1000) (patched_with [late_bob; alice]))
    = Return result
    /\ fst (get_user_info (env 1000) "10001" (patched_with [late_bob; alice]))
       = Return (dict_get "10001" result).
Proof.
  exact (get_agrees_with_get_all (env 1000) (patched_with [late_bob; alice])
           "10001" wf_late_bob_alice).
Defined.

(** X5 at work. *)
Lemma get_all_lists_what_remains_witness :
  exists result w',
    get_all_user_info (env 1000) (patched_with [late_bob; alice])
    = (Return result, w')
    /\ result
       = map (fun kv => (fst kv, user_data (snd kv))) (_global_user_cache w')
    /\ _global_user_cache w'
       = filter (fun kv => Qle_bool (clock (env 1000) 0
                                     - entry_timestamp (snd kv)) 600)
           [late_bob; alice].
Proof.
  exact (get_all_lists_what_remains (env 1000)
           (patched_with [late_bob; alice]) wf_late_bob_alice).
Defined.

(** X6 at work: the first request of a client creates its session. *)
Lemma fetch_sends_one_request_witness :
  let w' := snd (fetch_user_info (env 0) (client true) "10001" initial) in
  events w'
  = [EvSessionCreated; EvPost "http://10.255.255.254/get_info/10001"]
  /\ api_service w' = Some (with_session (client true))
  /\ _global_user_cache w' = [].
Proof.
  exact (fetch_sends_one_request (env 0) (client true) "10001" initial
           "http://10.255.255.254" eq_refl eq_refl).
Defined.

(** X7 at work. *)
Lemma trailing_slash_is_ignored_witness :
  let slashed :=
    with_base_url (VStr ("http://10.255.255.254" ++ "/")) (client true) in
  let plain := with_base_url (VStr "http://10.255.255.254") (client true) in
  fst (fetch_user_info (env 0) slashed "10001" initial)
  = fst (fetch_user_info (env 0) plain "10001" initial)
  /\ events (snd (fetch_user_info (env 0) slashed "10001" initial))
     = events (snd (fetch_user_info (env 0) plain "10001" initial)).
Proof.
  exact (trailing_slash_is_ignored (env 0) (client true) "10001" initial
           "http://10.255.255.254" eq_refl).
Defined.

(** X8 at work. *)
Lemma unparsable_body_is_an_error_witness :
  fst (fetch_user_info garbled_env (client true) "10001" initial)
  = Return [ ("success", VBool false); ("data", VNone);
             ("status_code", VInt 0); ("error", VStr "请求错误: no JSON") ].
Proof.
  exact (unparsable_body_is_an_error garbled_env (client true) "10001" initial
           "http://10.255.255.254"
           (Exn (OtherException "ContentTypeError") "no JSON")
           eq_refl eq_refl eq_refl).
Defined.


(** X10 at work. *)
Lemma failed_import_changes_nothing_witness :
  apply_user_info_patch unimportable = (Return false, unimportable)
  /\ UserInfoPlugin_init unimportable = (Return tt, unimportable)
  /\ delayed_patch unimportable = (Return tt, unimportable)
  /\ on_plugin_enable unimportable = (Return tt, unimportable).
Proof. exact (failed_import_changes_nothing unimportable eq_refl). Defined.

(** X11 at work: nothing is patched yet. *)
Lemma refused_removal_changes_nothing_witness :
  remove_user_info_patch initial = (Return false, initial)
  /\ on_plugin_disable initial = (Return tt, initial)
  /\ on_plugin_unload initial = (Return tt, set_cache [] initial).
Proof.
  exact (refused_removal_changes_nothing initial (or_introl eq_refl)).
Defined.

(** X12 at work. *)
Lemma disable_then_enable_round_trip_witness :
  exists w1,
    on_plugin_disable (patched_with [alice]) = (Return tt, w1)
    /\ DefaultReplyer_build_prompt_reply_context w1 = Some (HostMethod 0)
    /\ PrivateReplyer_build_prompt_reply_context w1 = Some (HostMethod 1)
    /\ _patch_applied w1 = false
    /\ _global_user_cache w1 = [alice]
    /\ on_plugin_enable w1 = (Return tt, patched_with [alice]).
Proof.
  exact (disable_then_enable_round_trip (patched_with [alice]) (HostMethod 0)
           (HostMethod 1) eq_refl eq_refl eq_refl eq_refl eq_refl eq_refl).
Defined.

(** X13 at work. *)
Lemma start_up_then_unload_restores_host_witness :
  exists w1 w2,
    UserInfoPlugin_init initial = (Return tt, w1)
    /\ delayed_patch w1 = (Return tt, w1)
    /\ DefaultReplyer_build_prompt_reply_context w1 = Some PatchedMethod
    /\ PrivateReplyer_build_prompt_reply_context w1 = Some PatchedMethodPri
    /\ on_plugin_unload w1 = (Return tt, w2)
    /\ DefaultReplyer_build_prompt_reply_context w2 = Some (HostMethod 0)
    /\ PrivateReplyer_build_prompt_reply_context w2 = Some (HostMethod 1)
    /\ _patch_applied w2 = false
    /\ _global_user_cache w2 = [].
Proof.
  exact (start_up_then_unload_restores_host initial (HostMethod 0)
           (HostMethod 1) eq_refl eq_refl eq_refl eq_refl eq_refl).
Defined.

(** X14 at work, for both wrappers. *)
Lemma empty_base_prompt_is_returned_at_once_witness :
  patched_method silent_env (call_method silent_env 1000)
    (args_of alice_reason (Some 0%Q)) (patched_with [bob; alice])
  = (Return ("", [1; 2; 3]%Z), patched_with [bob; alice])
  /\
  patched_method_pri silent_env (call_method silent_env 1000)
    (args_of alice_reason (Some 0%Q)) (patched_with [bob; alice])
  = (Return ("", [1; 2; 3]%Z), patched_with [bob; alice]).
Proof.
  pose (w := patched_with [bob; alice]).
  split.
  - exact (proj1 (empty_base_prompt_is_returned_at_once silent_env
                    (call_method silent_env 1000)
                    (args_of alice_reason (Some 0%Q))
                    w w w (HostMethod 0) 0%Q [1; 2; 3]%Z)
             eq_refl eq_refl eq_refl).
  - exact (proj2 (empty_base_prompt_is_returned_at_once silent_env
                    (call_method silent_env 1000)
                    (args_of alice_reason (Some 0%Q))
                    w w w (HostMethod 1) 0%Q [1; 2; 3]%Z)
             eq_refl eq_refl).
Defined.

Lemma bob_is_not_alice (w : World) :
  forall k e', In (k, e') [bob] -> display_name (user_data e') = "Alice" ->
               (600 < clock (env 0) (clock_reads w) - entry_timestamp e')%Q.
Proof.
  intros k e' [E|[]] Hname. injection E as <- <-. discriminate Hname.
Defined.

(** X15 at work, for both wrappers. *)
Lemma matched_record_is_injected_witness :
  fst (patched_method (env 0) (call_method (env 0) 1000)
         (args_of alice_reason (Some 0%Q)) (patched_with [bob; alice]))
  = Return (user_prompt_group "Alice" "10001" "30" "friendly"
            ++ impression_prompt ++ "BASE", [1; 2; 3]%Z)
  /\
  fst (patched_method_pri (env 0) (call_method (env 0) 1000)
         (args_of alice_reason (Some 0%Q)) (patched_with [bob; alice]))
  = Return (user_prompt_pri "Alice" "10001" "30" "friendly"
            ++ impression_prompt ++ "BASE", [1; 2; 3]%Z).
Proof.
  pose (w := patched_with [bob; alice]).
  assert (Hshort : (clock (env 0) 0 - entry_timestamp (snd alice) <= 600)%Q)
    by discriminate.
  split.
  - exact (proj1 (matched_record_is_injected (env 0) (call_method (env 0) 1000)
                    (args_of alice_reason (Some 0%Q)) w w w (HostMethod 0) 0%Q
                    "BASE" "Alice" [1; 2; 3]%Z [bob] [] "10001" (snd alice)
                    [ ("impression", VInt 30); ("attitude", VStr "friendly") ]
                    eq_refl ltac:(discriminate) wf_bob_alice eq_refl
                    ltac:(discriminate) (bob_is_not_alice w) eq_refl Hshort
                    eq_refl eq_refl eq_refl)
             eq_refl eq_refl eq_refl).
  - exact (proj2 (matched_record_is_injected (env 0) (call_method (env 0) 1000)
                    (args_of alice_reason (Some 0%Q)) w w w (HostMethod 1) 0%Q
                    "BASE" "Alice" [1; 2; 3]%Z [bob] [] "10001" (snd alice)
                    [ ("impression", VInt 30); ("attitude", VStr "friendly") ]
                    eq_refl ltac:(discriminate) wf_bob_alice eq_refl
                    ltac:(discriminate) (bob_is_not_alice w) eq_refl Hshort
                    eq_refl eq_refl eq_refl)
             eq_refl eq_refl).
Defined.

(** X16 at work, for both wrappers. *)
Lemma failed_fetch_gets_the_short_header_witness :
  fst (patched_method (env 0) (call_method (env 0) 1000)
         (args_of alice_reason (Some 0%Q)) (patched_with [bob; failed_alice]))
  = Return (user_prompt_group_failed "Alice" "10001" ++ "BASE", [1; 2; 3]%Z)
  /\
  fst (patched_method_pri (env 0) (call_method (env 0) 1000)
         (args_of alice_reason (Some 0%Q)) (patched_with [bob; failed_alice]))
  = Return (user_prompt_pri_failed "Alice" "10001" ++ "BASE", [1; 2; 3]%Z).
Proof.
  pose (w := patched_with [bob; failed_alice]).
  assert (Hwf : dict_wf [bob; failed_alice]) by (apply wf_pair; discriminate).
  assert (Hshort : (clock (env 0) 0 - entry_timestamp (snd failed_alice)
                    <= 600)%Q)
    by discriminate.
  split.
  - exact (proj1 (failed_fetch_gets_the_short_header (env 0)
                    (call_method (env 0) 1000)
                    (args_of alice_reason (Some 0%Q)) w w w (HostMethod 0) 0%Q
                    "BASE" "Alice" [1; 2; 3]%Z [bob] [] "10001"
                    (snd failed_alice)
                    eq_refl ltac:(discriminate) Hwf eq_refl
                    ltac:(discriminate) (bob_is_not_alice w) eq_refl Hshort
                    eq_refl eq_refl)
             eq_refl eq_refl eq_refl).
  - exact (proj2 (failed_fetch_gets_the_short_header (env 0)
                    (call_method (env 0) 1000)
                    (args_of alice_reason (Some 0%Q)) w w w (HostMethod 1) 0%Q
                    "BASE" "Alice" [1; 2; 3]%Z [bob] [] "10001"
                    (snd failed_alice)
                    eq_refl ltac:(discriminate) Hwf eq_refl
                    ltac:(discriminate) (bob_is_not_alice w) eq_refl Hshort
                    eq_refl eq_refl)
             eq_refl eq_refl).
Defined.

(** X17 at work, for both wrappers. *)
Lemma payload_that_is_no_dictionary_is_skipped_witness :
  fst (patched_method (env 0) (call_method (env 0) 1000)
         (args_of alice_reason (Some 0%Q)) (patched_with [bob; odd_alice]))
  = Return ("BASE", [1; 2; 3]%Z)
  /\
  fst (patched_method_pri (env 0) (call_method (env 0) 1000)
         (args_of alice_reason (Some 0%Q)) (patched_with [bob; odd_alice]))
  = Return ("BASE", [1; 2; 3]%Z).
Proof.
  pose (w := patched_with [bob; odd_alice]).
  assert (Hwf : dict_wf [bob; odd_alice]) by (apply wf_pair; discriminate).
  assert (Hshort : (clock (env 0) 0 - entry_timestamp (snd odd_alice)
                    <= 600)%Q)
    by discriminate.
  assert (Hlist : forall d, VList [] <> VDict d) by discriminate.
  split.
  - exact (proj1 (payload_that_is_no_dictionary_is_skipped (env 0)
                    (call_method (env 0) 1000)
                    (args_of alice_reason (Some 0%Q)) w w w (HostMethod 0) 0%Q
                    "BASE" "Alice" [1; 2; 3]%Z [bob] [] "10001"
                    (snd odd_alice) (VList [])
                    eq_refl ltac:(discriminate) Hwf eq_refl
                    ltac:(discriminate) (bob_is_not_alice w) eq_refl Hshort
                    eq_refl eq_refl eq_refl Hlist)
             eq_refl eq_refl eq_refl).
  - exact (proj2 (payload_that_is_no_dictionary_is_skipped (env 0)
                    (call_method (env 0) 1000)
                    (args_of alice_reason (Some 0%Q)) w w w (HostMethod 1) 0%Q
                    "BASE" "Alice" [1; 2; 3]%Z [bob] [] "10001"
                    (snd odd_alice) (VList [])
                    eq_refl ltac:(discriminate) Hwf eq_refl
                    ltac:(discriminate) (bob_is_not_alice w) eq_refl Hshort
                    eq_refl eq_refl eq_refl Hlist)
             eq_refl eq_refl).
Defined.

(** X18 at work: white space at the end of the name is kept. *)
Lemma name_in_first_parenthesis_is_extracted_witness :
  sender_name_of ("told Alice " ++ "(" ++ "Alice " ++ ")" ++ " (again) hi")
  = Return "Alice ".
Proof.
  exact (name_in_first_parenthesis_is_extracted "told Alice " "Alice "
           " (again) hi" eq_refl eq_refl eq_refl eq_refl).
Defined.

(** X19 at work. *)
Lemma disabled_collector_does_nothing_witness :
  execute disabled_env message_from_alice initial
  = (Return (true, true, "用户信息获取已禁用", None, None), initial).
Proof.
  exact (disabled_collector_does_nothing disabled_env message_from_alice
           initial (VBool false) eq_refl eq_refl).
Defined.

(** X20 at work. *)
Lemma message_without_sender_is_skipped_witness :
  execute (env 0) anonymous_message (ready_with [alice])
  = (Return (true, true, "无法获取发言者QQ号，跳过信息获取", None, None),
     ready_with [alice]).
Proof.
  exact (message_without_sender_is_skipped (env 0) anonymous_message
           (ready_with [alice]) (VBool true) (VBool false)
           [ ("user_nickname", VStr "Alice") ]
           eq_refl eq_refl eq_refl eq_refl eq_refl eq_refl eq_refl).
Defined.



(** X23 at work. *)
Lemma service_is_initialised_once_witness :
  exists w1,
    _initialize_service (env 0) initial = (Return tt, w1)
    /\ api_service w1 = Some (client true)
    /\ events w1 = []
    /\ _global_user_cache w1 = []
    /\ _initialize_service (env 0) w1 = (Return tt, w1).
Proof.
  exact (service_is_initialised_once (env 0) initial
           (VStr "http://10.255.255.254") (VStr "") (VFloat (5 # 1))
           (VBool false) (VBool true)
           eq_refl eq_refl eq_refl eq_refl eq_refl eq_refl).
Defined.

End WorkedMore.
